(** * Callback routing and session workflow of the poll-to-sheet bot

    A shallow embedding of [src/handlers/callback-handlers.ts] and of the
    keyboard builders ([keyboards.ts], exporting [CallbackPrefix]).

    Conventions.
    - A [string] holds the UTF-8 bytes of the JavaScript string.  Every
      literal the handlers slice by or compare with is ASCII, so the byte
      counts used below coincide with the UTF-16 code-unit counts of the
      source.
    - A handler is a state-passing function on a context [Ctx] made of the
      per-chat session, the pressed button's callback data and the log of
      effects performed so far.
    - Functions of the repository that the handlers import but whose
      modules are not part of the embedded sources are fields of the class
      [Collaborators]; every theorem holds for all of them. *)

From Stdlib Require Import String Ascii List ZArith Lia Bool DecimalString.
From Stdlib Require DecimalNat Permutation.
Import ListNotations.
Local Open Scope string_scope.

(* ================================================================== *)
(** ** JavaScript built-ins used by the sources *)

(** [s.slice(start)] for a non-negative [start]: the suffix of [s] from
    position [start], empty when [start] is past the end. *)
Fixpoint slice (start : nat) (s : string) : string :=
  match start, s with
  | O, _ => s
  | S _, EmptyString => EmptyString
  | S n, String _ rest => slice n rest
  end.

(** [s.startsWith(p)]. *)
Fixpoint startsWith (s p : string) {struct p} : bool :=
  match p with
  | EmptyString => true
  | String a p' =>
      match s with
      | EmptyString => false
      | String b s' => Ascii.eqb a b && startsWith s' p'
      end
  end.

(** [`${n}`] for a non-negative integer. *)
Definition decimal (n : nat) : string :=
  NilEmpty.string_of_uint (Nat.to_uint n).

(** [arr.join(sep)]. *)
Definition join (sep : string) (arr : list string) : string :=
  String.concat sep arr.

(** [arr.forEach((x, index) => ...)] with the loop-carried state made
    explicit. *)
Fixpoint forEachFrom {A St : Type} (body : A -> nat -> St -> St)
    (arr : list A) (index : nat) (st : St) : St :=
  match arr with
  | [] => st
  | x :: rest => forEachFrom body rest (S index) (body x index st)
  end.

Definition forEach {A St : Type} (body : A -> nat -> St -> St)
    (arr : list A) (st : St) : St :=
  forEachFrom body arr 0 st.

(** *** [parseInt(s, 10)]

    Leading white space is skipped, an optional sign is read, then the
    longest run of decimal digits; [None] stands for [NaN] (no digit
    found).  The handler only compares the result with [0] and with an
    array length, and indexes with it when it is in range, so the exact
    integer stands for the double ([-0] is [0] for all of these uses). *)

Definition isDigit (c : ascii) : bool :=
  let n := nat_of_ascii c in (48 <=? n)%nat && (n <=? 57)%nat.

Definition digitValue (c : ascii) : Z := Z.of_nat (nat_of_ascii c) - 48.

Definition byteIs (c : ascii) (n : nat) : bool := (nat_of_ascii c =? n)%nat.

(** White space of one byte: TAB, LF, VT, FF, CR, SP. *)
Definition isWhite1 (c : ascii) : bool :=
  let n := nat_of_ascii c in
  ((9 <=? n)%nat && (n <=? 13)%nat) || (n =? 32)%nat.

(** White space of two bytes: U+00A0. *)
Definition isWhite2 (a b : ascii) : bool := byteIs a 194 && byteIs b 160.

(** White space of three bytes: U+1680, U+2000..U+200A, U+2028, U+2029,
    U+202F, U+205F, U+3000 and U+FEFF. *)
Definition isWhite3 (a b c : ascii) : bool :=
  let z := nat_of_ascii c in
  (byteIs a 225 && byteIs b 154 && byteIs c 128)
  || (byteIs a 226 && byteIs b 128
      && (((128 <=? z)%nat && (z <=? 138)%nat)
          || (z =? 168)%nat || (z =? 169)%nat || (z =? 175)%nat))
  || (byteIs a 226 && byteIs b 129 && byteIs c 159)
  || (byteIs a 227 && byteIs b 128 && byteIs c 128)
  || (byteIs a 239 && byteIs b 187 && byteIs c 191).

Fixpoint skipWhiteSpace (s : string) : string :=
  match s with
  | String a rest1 =>
      if isWhite1 a then skipWhiteSpace rest1
      else
        match rest1 with
        | String b rest2 =>
            if isWhite2 a b then skipWhiteSpace rest2
            else
              match rest2 with
              | String c rest3 =>
                  if isWhite3 a b c then skipWhiteSpace rest3 else s
              | EmptyString => s
              end
        | EmptyString => s
        end
  | EmptyString => s
  end.

(** The digits read so far are accumulated in [acc]; [seen] records whether
    at least one digit was read. *)
Fixpoint readDigits (s : string) (seen : bool) (acc : Z) : option Z :=
  match s with
  | String c rest =>
      if isDigit c then readDigits rest true (10 * acc + digitValue c)
      else if seen then Some acc else None
  | EmptyString => if seen then Some acc else None
  end.

Definition parseInt (s : string) : option Z :=
  match skipWhiteSpace s with
  | String c rest =>
      if byteIs c 45 then option_map Z.opp (readDigits rest false 0)
      else if byteIs c 43 then readDigits rest false 0
      else readDigits (String c rest) false 0
  | EmptyString => None
  end.

(** *** [Map] with insertion order

    A JavaScript [Map] iterates in the order in which keys were first
    inserted; [set] on a key already present replaces its value in place. *)
Section JsMap.
Context {K V : Type} (eqb : K -> K -> bool).

Fixpoint Map_get (m : list (K * V)) (k : K) : option V :=
  match m with
  | [] => None
  | (k', v) :: rest => if eqb k k' then Some v else Map_get rest k
  end.

Fixpoint Map_set (m : list (K * V)) (k : K) (v : V) : list (K * V) :=
  match m with
  | [] => [(k, v)]
  | (k', v') :: rest =>
      if eqb k k' then (k, v) :: rest else (k', v') :: Map_set rest k v
  end.

(** [new Map(entries)]. *)
Definition Map_new (entries : list (K * V)) : list (K * V) :=
  fold_left (fun m kv => Map_set m (fst kv) (snd kv)) entries [].

(** [m.size]. *)
Definition Map_size (m : list (K * V)) : nat := length m.
End JsMap.

(* ================================================================== *)
(** ** Inline keyboards (the grammY [InlineKeyboard] builder) *)

Record InlineKeyboardButton : Type := mkButton {
  text : string;
  callback_data : string
}.

(** Rows of buttons.  [new InlineKeyboard()] starts with one empty row. *)
Definition InlineKeyboard : Type := list (list InlineKeyboardButton).

Definition newInlineKeyboard : InlineKeyboard := [[]].

(** [keyboard.text(label, data)] appends a button to the last row. *)
Fixpoint kb_text (label data : string) (kb : InlineKeyboard) : InlineKeyboard :=
  match kb with
  | [] => []
  | [r] => [(r ++ [mkButton label data])%list]
  | r :: rest => r :: kb_text label data rest
  end.

(** [keyboard.row()] opens a new row. *)
Definition kb_row (kb : InlineKeyboard) : InlineKeyboard :=
  (kb ++ [[]])%list.

(** All the buttons of a keyboard, row after row: the interactive choices
    it offers. *)
Definition buttons (kb : InlineKeyboard) : list InlineKeyboardButton :=
  concat kb.

(* ================================================================== *)
(** ** keyboards.ts *)

Inductive CallbackPrefixId : Type := YES_NO | COLUMN | POLL_INTENT | POLL_OPTION.

Definition CallbackPrefix (p : CallbackPrefixId) : string :=
  match p with
  | YES_NO => "yn:"
  | COLUMN => "col:"
  | POLL_INTENT => "pi:"
  | POLL_OPTION => "po:"
  end.

(** The template literal [`${CallbackPrefix.P}${payload}`] with which every
    keyboard builder forms the callback data of a button. *)
Definition encode (p : CallbackPrefixId) (payload : string) : string :=
  CallbackPrefix p ++ payload.

Definition yesNoKeyboard (yesData noData : string) : InlineKeyboard :=
  kb_text "❌ No" (encode YES_NO noData)
    (kb_text "✅ Yes" (encode YES_NO yesData) newInlineKeyboard).

Definition columnConfirmationKeyboard (currentColumn nextColumn : string)
    : InlineKeyboard :=
  kb_text ("➕ Create " ++ nextColumn) (encode COLUMN ("new:" ++ nextColumn))
    (kb_text ("✅ Use " ++ currentColumn)
       (encode COLUMN ("use:" ++ currentColumn)) newInlineKeyboard).

Definition newColumnChoiceKeyboard (column : string) : InlineKeyboard :=
  kb_text "❌ Cancel" (encode COLUMN "cancel")
    (kb_text ("✅ Create " ++ column) (encode COLUMN ("create:" ++ column))
       newInlineKeyboard).

Record ColumnMatch : Type := mkColumnMatch {
  cm_column : string;
  cm_date : string
}.

Definition selectButton (m : ColumnMatch) (index : nat) : InlineKeyboardButton :=
  mkButton (decimal (index + 1) ++ ". " ++ cm_column m ++ ": " ++ cm_date m)
           (encode COLUMN ("select:" ++ cm_column m)).

Definition columnSelectionKeyboard (matches : list ColumnMatch)
    : InlineKeyboard :=
  forEach
    (fun m index keyboard =>
       let keyboard :=
         kb_text (text (selectButton m index))
                 (callback_data (selectButton m index)) keyboard in
       if (Z.of_nat index <? Z.of_nat (length matches) - 1)%Z
       then kb_row keyboard else keyboard)
    matches newInlineKeyboard.

Definition playerCountConfirmationKeyboard (recognizedCount : nat)
    : InlineKeyboard :=
  kb_text "✏️ No, specify count" (encode YES_NO "playercount:no")
    (kb_text ("✅ Yes, " ++ decimal recognizedCount ++ " players")
       (encode YES_NO "playercount:yes") newInlineKeyboard).

Definition overrideConfirmationKeyboard : InlineKeyboard :=
  kb_text "⏭️ Skip existing" (encode YES_NO "override:no")
    (kb_text "✅ Overwrite" (encode YES_NO "override:yes") newInlineKeyboard).

Definition pollIntentKeyboard : InlineKeyboard :=
  kb_text "👀 View voters" (encode POLL_INTENT "view")
    (kb_text "📝 Update sheet" (encode POLL_INTENT "update") newInlineKeyboard).

(** [votes: Map<number, Set<string>>]: a [Set] is the list of its members
    in insertion order, which is what [Array.from] returns. *)
Definition Votes : Type := list (Z * list string).

Definition votes_get (votes : Votes) (index : Z) : option (list string) :=
  Map_get Z.eqb votes index.

Definition pollOptionKeyboard (options : list string) (votes : Votes)
    : InlineKeyboard :=
  forEach
    (fun opt index keyboard =>
       let voterCount :=
         match votes_get votes (Z.of_nat index) with
         | Some voters => length voters
         | None => 0%nat
         end in
       let keyboard :=
         kb_text (decimal (index + 1) ++ ". " ++ opt
                    ++ " (" ++ decimal voterCount ++ ")")
                 (encode POLL_OPTION (decimal index)) keyboard in
       if (Z.of_nat index <? Z.of_nat (length options) - 1)%Z
       then kb_row keyboard else keyboard)
    options newInlineKeyboard.

(* ================================================================== *)
(** ** Routing of a button press (registerCallbackHandlers)

    Each handler is registered under the regular expression
    [^<prefix>] and reads its payload with [data.slice(prefix.length)].
    The first registered handler whose trigger matches runs. *)

Definition trigger (p : CallbackPrefixId) (data : string) : bool :=
  startsWith data (CallbackPrefix p).

Definition registered : list CallbackPrefixId :=
  [YES_NO; COLUMN; POLL_INTENT; POLL_OPTION].

Definition route (data : string) : option CallbackPrefixId :=
  find (fun p => trigger p data) registered.

Definition payloadOf (p : CallbackPrefixId) (data : string) : string :=
  slice (String.length (CallbackPrefix p)) data.

Definition decode (data : string) : option (CallbackPrefixId * string) :=
  option_map (fun p => (p, payloadOf p data)) (route data).

(* ================================================================== *)
(** ** Session, poll data and the handler context *)

Inductive SessionState : Type :=
| idle
| awaiting_column_choice
| awaiting_date_name
| awaiting_player_count
| awaiting_override_choice
| awaiting_poll_option_selection.

Record ExistingValue : Type := mkExistingValue {
  nickname : string;
  existingValue : string
}.

(** Modelled from the spec: the type of the session record, declared in
    the session module, which is not among the sources.  The fields are
    those of the data model (section 3) together with [column], which
    [handleOverrideChoice] reads and section 7 lists; [None] is
    [undefined]. *)
Record Session : Type := mkSession {
  state : SessionState;
  targetColumn : option string;
  column : option string;
  isNewColumn : bool;
  columnMatches : option (list ColumnMatch);
  playerCount : option Z;
  nicknameRowsEntries : option (list (string * Z));
  existingValuesEntries : option (list ExistingValue);
  usernames : option (list string);
  pollId : option string;
  pollQuestion : option string
}.

(** Assignments [ctx.session.<field> = v]. *)
Definition set_state (v : SessionState) (s : Session) : Session :=
  mkSession v (targetColumn s) (column s) (isNewColumn s) (columnMatches s)
    (playerCount s) (nicknameRowsEntries s) (existingValuesEntries s)
    (usernames s) (pollId s) (pollQuestion s).

Definition set_targetColumn (v : option string) (s : Session) : Session :=
  mkSession (state s) v (column s) (isNewColumn s) (columnMatches s)
    (playerCount s) (nicknameRowsEntries s) (existingValuesEntries s)
    (usernames s) (pollId s) (pollQuestion s).

Definition set_isNewColumn (v : bool) (s : Session) : Session :=
  mkSession (state s) (targetColumn s) (column s) v (columnMatches s)
    (playerCount s) (nicknameRowsEntries s) (existingValuesEntries s)
    (usernames s) (pollId s) (pollQuestion s).

Definition set_columnMatches (v : option (list ColumnMatch)) (s : Session)
    : Session :=
  mkSession (state s) (targetColumn s) (column s) (isNewColumn s) v
    (playerCount s) (nicknameRowsEntries s) (existingValuesEntries s)
    (usernames s) (pollId s) (pollQuestion s).

Definition set_playerCount (v : option Z) (s : Session) : Session :=
  mkSession (state s) (targetColumn s) (column s) (isNewColumn s)
    (columnMatches s) v (nicknameRowsEntries s) (existingValuesEntries s)
    (usernames s) (pollId s) (pollQuestion s).

Definition set_usernames (v : option (list string)) (s : Session) : Session :=
  mkSession (state s) (targetColumn s) (column s) (isNewColumn s)
    (columnMatches s) (playerCount s) (nicknameRowsEntries s)
    (existingValuesEntries s) v (pollId s) (pollQuestion s).

Definition set_pollId (v : option string) (s : Session) : Session :=
  mkSession (state s) (targetColumn s) (column s) (isNewColumn s)
    (columnMatches s) (playerCount s) (nicknameRowsEntries s)
    (existingValuesEntries s) (usernames s) v (pollQuestion s).

Definition set_pollQuestion (v : option string) (s : Session) : Session :=
  mkSession (state s) (targetColumn s) (column s) (isNewColumn s)
    (columnMatches s) (playerCount s) (nicknameRowsEntries s)
    (existingValuesEntries s) (usernames s) (pollId s) v.

(** Modelled from the spec: the initial empty form of a session (section 3:
    a session is reset to its initial empty form); the session module that
    creates it is not among the sources.  The state is [idle], every
    nullable field is absent and the boolean is [false]. *)
Definition initialSession : Session :=
  mkSession idle None None false None None None None None None None.

(** Modelled from the spec: [resetSession] of the session module, not among
    the sources; it puts the session back to its initial empty form. *)
Definition resetSession (s : Session) : Session := initialSession.

Record PollData : Type := mkPollData {
  question : string;
  options : list string;
  votes : Votes
}.

Definition NicknameRows : Type := list (string * Z).

(** What a handler does to the outside world, in order.  The first two are
    the chat-transport calls the handlers make themselves; the last two are
    made by collaborators. *)
Inductive Effect : Type :=
| AnswerCallbackQuery
| EditMessageText (message : string) (reply_markup : option InlineKeyboard)
| ReportError (message : string)
| ExternalWrite (what : string).

Record Ctx : Type := mkCtx {
  session : Session;
  callbackData : string;
  effects : list Effect
}.

(** *** The handler monad: state passing over [Ctx] *)

Definition M (A : Type) : Type := Ctx -> A * Ctx.

Definition ret {A : Type} (a : A) : M A := fun ctx => (a, ctx).

Definition bind {A B : Type} (m : M A) (k : A -> M B) : M B :=
  fun ctx => let (a, ctx') := m ctx in k a ctx'.

Declare Scope handler_scope.
Delimit Scope handler_scope with handler.
Notation "x <- m ;; k" := (bind m (fun x => k))
  (at level 61, m at next level, right associativity) : handler_scope.
Notation "m ;; k" := (bind m (fun _ => k))
  (at level 61, right associativity) : handler_scope.
Local Open Scope handler_scope.

(** The context a handler leaves behind. *)
Definition exec {A : Type} (m : M A) (ctx : Ctx) : Ctx := snd (m ctx).

Definition getSession : M Session := fun ctx => (session ctx, ctx).

Definition modifySession (f : Session -> Session) : M unit :=
  fun ctx => (tt, mkCtx (f (session ctx)) (callbackData ctx) (effects ctx)).

Definition perform (e : Effect) : M unit :=
  fun ctx =>
    (tt, mkCtx (session ctx) (callbackData ctx) (effects ctx ++ [e])%list).

(** [ctx.callbackQuery.data.slice(CallbackPrefix.P.length)]. *)
Definition callbackPayload (p : CallbackPrefixId) : M string :=
  fun ctx => (payloadOf p (callbackData ctx), ctx).

Definition answerCallbackQuery : M unit := perform AnswerCallbackQuery.

Definition editMessageText (message : string)
    (reply_markup : option InlineKeyboard) : M unit :=
  perform (EditMessageText message reply_markup).

(** [try { body } catch (error) { handler(error) }]: the body yields
    [inl error] when it throws. *)
Definition tryCatch {E : Type} (body : M (E + unit)) (handler : E -> M unit)
    : M unit :=
  r <- body ;;
  match r with
  | inl error => handler error
  | inr _ => ret tt
  end.

(** Sequencing inside a [try] block: a thrown error skips what follows. *)
Definition andThen {E A B : Type} (m : M (E + A)) (k : A -> M (E + B))
    : M (E + B) :=
  r <- m ;;
  match r with
  | inl error => ret (inl error)
  | inr a => k a
  end.

(** Truthiness of an optional string: [undefined] and [''] are falsy. *)
Definition truthy (v : option string) : bool :=
  match v with
  | Some s => negb (s =? "")
  | None => false
  end.

(** [a || b] on optional strings. *)
Definition orElse (a b : option string) : option string :=
  if truthy a then a else b.

(** The line feed and the double quote of the message templates. *)
Definition LF : string := String (ascii_of_nat 10) EmptyString.
Definition DQ : string := String (ascii_of_nat 34) EmptyString.

(** Modelled from the spec: [replyErrorAndReset] of the bot helpers, not
    among the sources.  Section 7: the error is reported to the user and
    the session is fully reset. *)
Definition replyErrorAndReset (message : string) : M unit :=
  perform (ReportError message) ;;
  modifySession resetSession.

(** The functions the handlers import from modules that are not among the
    sources (bot helpers, constants, sheets client, workflow).  A function
    called inside a [try] block yields [inl error] when it throws. *)
Class Collaborators : Type := {
  ApiError : Type;
  SheetsClient : Type;
  ERR_SESSION_DATA_LOST : string;
  (** The [pollData] of the result, [None] for a falsy result. *)
  getPollDataOrError : M (option PollData);
  buildPollOptionsText : PollData -> string;
  handleApiError : ApiError -> string -> option bool -> M unit;
  initSheetsClient : M (ApiError + SheetsClient);
  writeColumnMetadata :
    SheetsClient -> string -> option string -> option string -> option Z ->
    M (ApiError + unit);
  checkOverridesAndWrite : NicknameRows -> M (ApiError + unit);
  proceedWithMetadataCollection : M unit;
  startColumnDetectionFlow : M unit;
  writeZerosAndRespond :
    NicknameRows -> string -> bool -> list string -> M (ApiError + unit)
}.

(* ================================================================== *)
(** ** callback-handlers.ts *)

Section Handlers.
Context {collaborators : Collaborators}.

(** The [const skippedNicknames] of [handleOverrideChoice]: an array is
    truthy even when empty, so only an absent [existingValuesEntries]
    takes the second branch of the conditional. *)
Definition skippedNicknames (overwrite : bool) (s : Session) : list string :=
  match negb overwrite, existingValuesEntries s with
  | true, Some entries => map nickname entries
  | _, _ => []
  end.

Definition handlePlayerCountYes : M unit :=
  s <- getSession ;;
  match (if truthy (targetColumn s) then targetColumn s else None),
        nicknameRowsEntries s with
  | Some target, Some entries =>
      let nicknameRows := Map_new String.eqb entries in
      let recognizedCount := Map_size nicknameRows in
      modifySession (set_playerCount (Some (Z.of_nat recognizedCount))) ;;
      editMessageText ("✅ Player count: " ++ decimal recognizedCount) None ;;
      tryCatch
        (andThen initSheetsClient (fun sheetsClient =>
         andThen
           (writeColumnMetadata sheetsClient target None None
              (Some (Z.of_nat recognizedCount)))
           (fun _ => checkOverridesAndWrite nicknameRows)))
        (fun error =>
           handleApiError error
             "writing player count or checking overrides" (Some false))
  | _, _ => replyErrorAndReset ERR_SESSION_DATA_LOST
  end.

Definition handleOverrideChoice (overwrite : bool) : M unit :=
  s <- getSession ;;
  let columnToUse := orElse (column s) (targetColumn s) in
  match (if truthy columnToUse then columnToUse else None),
        nicknameRowsEntries s with
  | Some columnToUse, Some entries =>
      let nicknameRows := Map_new String.eqb entries in
      let skipped := skippedNicknames overwrite s in
      editMessageText
        (if overwrite then "✅ Will overwrite existing values"
         else "⏭️ Will skip existing values") None ;;
      tryCatch
        (writeZerosAndRespond nicknameRows columnToUse overwrite skipped)
        (fun error => handleApiError error "updating sheet" None)
  | _, _ =>
      replyErrorAndReset "❌ Error: session data lost. Start over with /update"
  end.

Definition yesNoHandler : M unit :=
  data <- callbackPayload YES_NO ;;
  answerCallbackQuery ;;
  if data =? "playercount:yes" then handlePlayerCountYes
  else if data =? "playercount:no" then
    modifySession (set_state awaiting_player_count) ;;
    editMessageText "How many players attended the match?" None
  else if data =? "override:yes" then handleOverrideChoice true
  else if data =? "override:no" then handleOverrideChoice false
  else ret tt.

Definition columnHandler : M unit :=
  data <- callbackPayload COLUMN ;;
  answerCallbackQuery ;;
  if startsWith data "use:" then
    let column := slice 4 data in
    modifySession (set_targetColumn (Some column)) ;;
    modifySession (set_isNewColumn false) ;;
    editMessageText ("✅ Using column " ++ column) None ;;
    proceedWithMetadataCollection
  else if startsWith data "new:" then
    let column := slice 4 data in
    modifySession (set_targetColumn (Some column)) ;;
    modifySession (set_isNewColumn true) ;;
    modifySession (set_state awaiting_date_name) ;;
    editMessageText
      ("📅 Please provide the date name for column " ++ column ++ " (row 1):")
      None
  else if startsWith data "create:" then
    let column := slice 7 data in
    modifySession (set_targetColumn (Some column)) ;;
    modifySession (set_isNewColumn true) ;;
    modifySession (set_state awaiting_date_name) ;;
    editMessageText
      ("📅 Please provide the date name for column " ++ column ++ " (row 1):")
      None
  else if data =? "cancel" then
    modifySession resetSession ;;
    editMessageText "✅ Operation cancelled. Use /update to start again." None
  else if startsWith data "select:" then
    let column := slice 7 data in
    modifySession (set_targetColumn (Some column)) ;;
    modifySession (set_isNewColumn false) ;;
    modifySession (set_columnMatches None) ;;
    editMessageText ("✅ Selected column " ++ column) None ;;
    proceedWithMetadataCollection
  else ret tt.

(** [voters = pollData.votes.get(index) || new Set()] followed by
    [Array.from(voters)]. *)
Definition votersOf (pollData : PollData) (index : Z) : list string :=
  match votes_get (votes pollData) index with
  | Some voters => voters
  | None => []
  end.

Definition viewResponse (pollData : PollData) : string :=
  forEach
    (fun opt index response =>
       let voterList := join " " (votersOf pollData (Z.of_nat index)) in
       response ++ decimal (index + 1) ++ ". " ++ opt ++ ": "
         ++ (if voterList =? "" then "(no votes)" else voterList) ++ LF)
    (options pollData)
    ("📊 Poll: " ++ DQ ++ question pollData ++ DQ ++ LF ++ LF).

Definition pollIntentHandler : M unit :=
  data <- callbackPayload POLL_INTENT ;;
  answerCallbackQuery ;;
  if data =? "update" then
    result <- getPollDataOrError ;;
    match result with
    | None => ret tt
    | Some pollData =>
        modifySession (set_state awaiting_poll_option_selection) ;;
        let optionsText := buildPollOptionsText pollData in
        editMessageText
          ("Which option contains the attending players?" ++ LF ++ LF
             ++ optionsText)
          (Some (pollOptionKeyboard (options pollData) (votes pollData)))
    end
  else if data =? "view" then
    result <- getPollDataOrError ;;
    match result with
    | None => ret tt
    | Some pollData =>
        editMessageText (viewResponse pollData) None ;;
        modifySession resetSession
    end
  else ret tt.

(** [pollData.options[optionIndex]] inside a template literal. *)
Definition optionAt (pollData : PollData) (index : Z) : string :=
  match nth_error (options pollData) (Z.to_nat index) with
  | Some opt => opt
  | None => "undefined"
  end.

Definition pollOptionHandler : M unit :=
  data <- callbackPayload POLL_OPTION ;;
  let optionIndex := parseInt data in
  answerCallbackQuery ;;
  match optionIndex with
  | None => editMessageText "❌ Invalid option." None
  | Some optionIndex =>
      result <- getPollDataOrError ;;
      match result with
      | None => ret tt
      | Some pollData =>
          if ((optionIndex <? 0)
              || (optionIndex >=? Z.of_nat (length (options pollData))))%Z
          then
            editMessageText
              ("❌ Invalid option number. Please choose between 1 and "
                 ++ decimal (length (options pollData)) ++ ".") None
          else
            let usernames := votersOf pollData optionIndex in
            if (length usernames =? 0)%nat then
              replyErrorAndReset "❌ No voters found for this option."
            else
              modifySession (set_usernames (Some usernames)) ;;
              modifySession (set_pollId None) ;;
              modifySession (set_pollQuestion None) ;;
              editMessageText
                ("✅ Selected option: " ++ DQ
                   ++ optionAt pollData optionIndex ++ DQ ++ LF
                   ++ "👥 Attending players: " ++ join " " usernames) None ;;
              startColumnDetectionFlow
      end
  end.

Definition handlerOf (p : CallbackPrefixId) : M unit :=
  match p with
  | YES_NO => yesNoHandler
  | COLUMN => columnHandler
  | POLL_INTENT => pollIntentHandler
  | POLL_OPTION => pollOptionHandler
  end.

(** The bot after [registerCallbackHandlers]: a button press runs the
    handler its callback data routes to, and nothing when no trigger
    matches. *)
Definition registerCallbackHandlers : M unit :=
  fun ctx =>
    match route (callbackData ctx) with
    | Some p => handlerOf p ctx
    | None => (tt, ctx)
    end.

End Handlers.

(* ================================================================== *)
(** ** Vocabulary of the statements *)

(** The context once the button press has been acknowledged. *)
Definition acknowledged (ctx : Ctx) : Ctx :=
  mkCtx (session ctx) (callbackData ctx)
        (effects ctx ++ [AnswerCallbackQuery])%list.

(** The context after the message was edited to [message], without a
    keyboard. *)
Definition edited (message : string) (ctx : Ctx) : Ctx :=
  mkCtx (session ctx) (callbackData ctx)
        (effects ctx ++ [EditMessageText message None])%list.

(** The sub-actions of the wire format (section 6) that the [yn:] and
    [col:] handlers test for, negated: a payload that none of the tests
    of its handler accepts. *)
Definition unrecognized (p : CallbackPrefixId) (data : string) : Prop :=
  match p with
  | YES_NO =>
      data <> "playercount:yes" /\ data <> "playercount:no"
      /\ data <> "override:yes" /\ data <> "override:no"
  | COLUMN =>
      startsWith data "use:" = false /\ startsWith data "new:" = false
      /\ startsWith data "create:" = false /\ data <> "cancel"
      /\ startsWith data "select:" = false
  | POLL_INTENT | POLL_OPTION => False
  end.

(* ================================================================== *)
(** ** A concrete set of collaborators

    Used to run the handlers on concrete inputs: the poll source answers
    with a fixed result, the sheet store records every write it receives,
    and the two workflow entry points only move the session state. *)

Definition recordingCollaborators (poll : option PollData) : Collaborators :=
  {| ApiError := string;
     SheetsClient := unit;
     ERR_SESSION_DATA_LOST :=
       "❌ Error: session data lost. Start over with /update";
     getPollDataOrError := ret poll;
     buildPollOptionsText := fun pollData => join LF (options pollData);
     handleApiError := fun error operation _ =>
       perform (ReportError (operation ++ ": " ++ error));
     initSheetsClient := ret (inr tt);
     writeColumnMetadata := fun _ target _ _ _ =>
       perform (ExternalWrite ("metadata of " ++ target)) ;; ret (inr tt);
     checkOverridesAndWrite := fun _ => ret (inr tt);
     proceedWithMetadataCollection :=
       modifySession (set_state awaiting_player_count);
     startColumnDetectionFlow :=
       modifySession (set_state awaiting_column_choice);
     writeZerosAndRespond := fun nicknameRows target _ skipped =>
       perform (ExternalWrite
                  ("attendance in " ++ target ++ " skipping "
                     ++ join " " skipped)) ;;
       ret (inr tt) |}.

(** The polls of scenarios A and B. *)
Definition pollA : PollData :=
  mkPollData "Who plays?" ["Team A"; "Team B"] [(0%Z, ["alice"; "bob"])].

Definition pollB : PollData := mkPollData "Who plays?" ["Team A"] [].

(** A session waiting for the choice of a poll option. *)
Definition pollSession : Session :=
  mkSession awaiting_poll_option_selection None None false None None None
    None None (Some "poll-1") (Some "Who plays?").

(** A session waiting for the override decision of scenario D. *)
Definition overrideSession : Session :=
  mkSession awaiting_override_choice (Some "C") None false None (Some 2%Z)
    (Some [("alice", 2%Z); ("bob", 3%Z)])
    (Some [mkExistingValue "alice" "1"]) (Some ["alice"; "bob"]) None None.

(** A session whose column was given as [column], not as [targetColumn]. *)
Definition columnOnlySession : Session :=
  mkSession awaiting_override_choice None (Some "C") false None (Some 1%Z)
    (Some [("alice", 2%Z)]) None (Some ["alice"]) None None.

(** A session in which a disambiguation is pending. *)
Definition pendingMatches : list ColumnMatch :=
  [mkColumnMatch "C" "01.03"; mkColumnMatch "D" "08.03"].

Definition disambiguationSession : Session :=
  mkSession awaiting_column_choice None None false (Some pendingMatches)
    None None None (Some ["alice"]) None None.

(* ================================================================== *)
(** ** Vocabulary of the further properties *)

(** Whether a string begins with a decimal digit. *)
Definition startsWithDigit (s : string) : bool :=
  match s with
  | String c _ => isDigit c
  | EmptyString => false
  end.

(** The elements of an array paired with their indices. *)
Definition indexed {A : Type} (arr : list A) : list (A * nat) :=
  combine arr (seq 0 (length arr)).

(** The button [pollOptionKeyboard] builds for the option [opt] at
    [index]. *)
Definition pollOptionButton (votes : Votes) (opt : string) (index : nat)
    : InlineKeyboardButton :=
  mkButton
    (decimal (index + 1) ++ ". " ++ opt ++ " ("
       ++ decimal (match votes_get votes (Z.of_nat index) with
                   | Some voters => length voters
                   | None => 0%nat
                   end)
       ++ ")")
    (encode POLL_OPTION (decimal index)).

(** The line the view branch of the poll-intent handler writes for the
    option [opt] at [index]. *)
Definition viewLine (pollData : PollData) (opt : string) (index : nat)
    : string :=
  decimal (index + 1) ++ ". " ++ opt ++ ": "
    ++ (if join " " (match votes_get (votes pollData) (Z.of_nat index) with
                     | Some voters => voters
                     | None => []
                     end) =? ""
        then "(no votes)"
        else join " " (match votes_get (votes pollData) (Z.of_nat index) with
                       | Some voters => voters
                       | None => []
                       end))
    ++ LF.

(** Collaborators whose sheet store refuses the metadata write. *)
Definition refusingCollaborators : Collaborators :=
  {| ApiError := string;
     SheetsClient := unit;
     ERR_SESSION_DATA_LOST :=
       "❌ Error: session data lost. Start over with /update";
     getPollDataOrError := perform (ReportError "poll not found") ;; ret None;
     buildPollOptionsText := fun pollData => join LF (options pollData);
     handleApiError := fun error operation _ =>
       perform (ReportError (operation ++ ": " ++ error));
     initSheetsClient := ret (inr tt);
     writeColumnMetadata := fun _ _ _ _ _ => ret (inl "quota exceeded");
     checkOverridesAndWrite := fun _ =>
       perform (ExternalWrite "attendance") ;; ret (inr tt);
     proceedWithMetadataCollection :=
       modifySession (set_state awaiting_player_count);
     startColumnDetectionFlow :=
       modifySession (set_state awaiting_column_choice);
     writeZerosAndRespond := fun _ _ _ _ => ret (inl "quota exceeded") |}.

(** A session whose nickname rows list alice twice. *)
Definition duplicateSession : Session :=
  mkSession awaiting_player_count (Some "C") None false None None
    (Some [("alice", 2%Z); ("bob", 3%Z); ("alice", 7%Z)])
    None (Some ["alice"; "bob"]) None None.

(** A session holding both column fields. *)
Definition bothColumnsSession : Session :=
  mkSession awaiting_override_choice (Some "D") (Some "C") false None
    (Some 1%Z) (Some [("alice", 2%Z)]) None (Some ["alice"]) None None.

(* ================================================================== *)
(** ** Token codec *)

Lemma slice_append (p s : string) : slice (String.length p) (p ++ s) = s.
Proof. induction p as [|c p IH]; simpl; [reflexivity | exact IH]. Qed.

Lemma payloadOf_encode (p : CallbackPrefixId) (payload : string) :
  payloadOf p (encode p payload) = payload.
Proof. unfold payloadOf, encode. apply slice_append. Qed.

Lemma route_encode (p : CallbackPrefixId) (payload : string) :
  route (encode p payload) = Some p.
Proof. destruct p; reflexivity. Qed.

(** C3. For each of the four prefixes and every payload, the token made by
    prepending the prefix to the payload is routed to that prefix and to
    no other, and stripping the prefix gives the payload back unmodified. *)
Theorem decode_encode (p : CallbackPrefixId) (payload : string) :
  decode (encode p payload) = Some (p, payload)
  /\ payloadOf p (encode p payload) = payload
  /\ forall q, trigger q (encode p payload) = true -> q = p.
Proof.
  split; [|split].
  - unfold decode. rewrite route_encode. simpl.
    now rewrite payloadOf_encode.
  - apply payloadOf_encode.
  - intros q. destruct p, q; simpl; intros H; try reflexivity; discriminate H.
Qed.

(* ================================================================== *)
(** ** Keyboards *)

Lemma kb_text_nonempty label data kb : kb <> [] -> kb_text label data kb <> [].
Proof.
  destruct kb as [|r [|r' rest]]; simpl; intros H; congruence.
Qed.

Lemma buttons_kb_text label data kb :
  kb <> [] ->
  buttons (kb_text label data kb) = (buttons kb ++ [mkButton label data])%list.
Proof.
  unfold buttons. induction kb as [|r rest IH]; intros Hne; [congruence|].
  destruct rest as [|r' rest].
  - simpl. now rewrite !app_nil_r.
  - change (kb_text label data (r :: r' :: rest))
      with (r :: kb_text label data (r' :: rest)).
    cbn [concat]. rewrite IH by discriminate.
    cbn [concat]. now rewrite !app_assoc.
Qed.

Lemma kb_row_nonempty kb : kb_row kb <> [].
Proof. unfold kb_row. destruct kb; discriminate. Qed.

Lemma buttons_kb_row kb : buttons (kb_row kb) = buttons kb.
Proof.
  unfold buttons, kb_row. rewrite concat_app. simpl. now rewrite app_nil_r.
Qed.

(** The loop of [columnSelectionKeyboard], started at any index on any
    keyboard that has a row, adds one select button per remaining match. *)
Lemma selection_loop (total : Z) (matches : list ColumnMatch) :
  forall (index : nat) (kb : InlineKeyboard),
    kb <> [] ->
    let kb' :=
      forEachFrom
        (fun m index keyboard =>
           let keyboard :=
             kb_text (text (selectButton m index))
                     (callback_data (selectButton m index)) keyboard in
           if (Z.of_nat index <? total - 1)%Z
           then kb_row keyboard else keyboard)
        matches index kb in
    kb' <> []
    /\ buttons kb' =
       (buttons kb
          ++ map (fun mi => selectButton (fst mi) (snd mi))
               (combine matches (seq index (length matches))))%list.
Proof.
  induction matches as [|m rest IH]; intros index kb Hne; cbn zeta.
  - simpl. split; [assumption | now rewrite app_nil_r].
  - cbn [forEachFrom length seq combine map fst snd]. cbn beta zeta.
    set (kb1 := kb_text _ _ kb).
    assert (H1 : kb1 <> []) by (apply kb_text_nonempty; assumption).
    assert (B1 : buttons kb1 = (buttons kb ++ [selectButton m index])%list)
      by (unfold kb1; rewrite buttons_kb_text by assumption; reflexivity).
    destruct (Z.of_nat index <? total - 1)%Z.
    + pose proof (IH (S index) (kb_row kb1) (kb_row_nonempty kb1)) as IH1.
      cbn beta zeta in IH1. destruct IH1 as [Hn Hb].
      split; [exact Hn|]. rewrite Hb, buttons_kb_row, B1, <- app_assoc.
      reflexivity.
    + pose proof (IH (S index) kb1 H1) as IH1.
      cbn beta zeta in IH1. destruct IH1 as [Hn Hb].
      split; [exact Hn|]. rewrite Hb, B1, <- app_assoc. reflexivity.
Qed.

Lemma columnSelectionKeyboard_buttons (matches : list ColumnMatch) :
  buttons (columnSelectionKeyboard matches) =
  map (fun mi => selectButton (fst mi) (snd mi))
      (combine matches (seq 0 (length matches))).
Proof.
  unfold columnSelectionKeyboard, forEach.
  destruct (selection_loop (Z.of_nat (length matches)) matches 0
              newInlineKeyboard) as [_ H]; [discriminate|].
  exact H.
Qed.

(** C2, as stated, fails on the code: the disambiguation keyboard built for
    two candidates offers two choices, not three, and the keyboard of the
    zero-candidate case offers two choices, not one. *)
Lemma column_choices_counterexample :
  length (buttons (columnSelectionKeyboard pendingMatches))
    <> (length pendingMatches + 1)%nat
  /\ length (buttons (newColumnChoiceKeyboard "C")) <> (0 + 1)%nat.
Proof. split; vm_compute; discriminate. Qed.

(** C2, amended. The keyboard built for N candidate matches holds exactly N
    choices: the numbered select button of each candidate, in the order
    supplied, and no cancel button.  The keyboard of the zero-candidate case
    holds two choices, create and cancel; the keyboard of the
    single-candidate case holds two choices, use and create-next. *)
Theorem column_choices (matches : list ColumnMatch) (current next : string) :
  buttons (columnSelectionKeyboard matches) =
    map (fun mi => selectButton (fst mi) (snd mi))
        (combine matches (seq 0 (length matches)))
  /\ length (buttons (columnSelectionKeyboard matches)) = length matches
  /\ map callback_data (buttons (columnSelectionKeyboard matches)) =
       map (fun m => encode COLUMN ("select:" ++ cm_column m)) matches
  /\ map callback_data (buttons (newColumnChoiceKeyboard next)) =
       [encode COLUMN ("create:" ++ next); encode COLUMN "cancel"]
  /\ map callback_data (buttons (columnConfirmationKeyboard current next)) =
       [encode COLUMN ("use:" ++ current); encode COLUMN ("new:" ++ next)].
Proof.
  rewrite columnSelectionKeyboard_buttons.
  repeat split.
  - rewrite length_map, length_combine, length_seq. apply Nat.min_id.
  - generalize 0%nat. induction matches as [|m rest IH]; intros i;
      [reflexivity|].
    cbn [length seq combine map fst snd]. rewrite IH. reflexivity.
Qed.

(* ================================================================== *)
(** ** The yes/no and column handlers *)

(** Runs the primitive operations of the handler monad on the context at
    hand and puts the effect log in the form [log ++ [e1; ...; en]]. *)
Ltac run_primitives :=
  unfold bind, ret, callbackPayload, answerCallbackQuery, editMessageText,
    replyErrorAndReset, perform, modifySession, getSession, bind;
  cbn [session callbackData effects fst snd];
  rewrite <- ?app_assoc; cbn [app].

Section HandlerProperties.
Context {collaborators : Collaborators}.

Lemma decode_inv (raw : string) (p : CallbackPrefixId) (data : string) :
  decode raw = Some (p, data) ->
  route raw = Some p /\ data = payloadOf p raw.
Proof.
  unfold decode. destruct (route raw) as [q|]; simpl; [|discriminate].
  intros H. injection H as -> <-. split; reflexivity.
Qed.

(** C10. Whatever the session holds, [playercount:no] moves it to
    [awaiting_player_count] and prompts for the count: every other field
    keeps its value, no field is inspected and nothing is reset. *)
Theorem playercount_no_only_sets_state (s : Session) (log : list Effect) :
  registerCallbackHandlers (mkCtx s (encode YES_NO "playercount:no") log) =
  (tt,
   mkCtx
     (mkSession awaiting_player_count (targetColumn s) (column s)
        (isNewColumn s) (columnMatches s) (playerCount s)
        (nicknameRowsEntries s) (existingValuesEntries s) (usernames s)
        (pollId s) (pollQuestion s))
     (encode YES_NO "playercount:no")
     (log ++ [AnswerCallbackQuery;
              EditMessageText "How many players attended the match?" None])).
Proof.
  unfold registerCallbackHandlers. cbn [callbackData].
  rewrite route_encode. cbn [handlerOf].
  unfold yesNoHandler, bind, callbackPayload. cbn [callbackData].
  rewrite payloadOf_encode. simpl. run_primitives. reflexivity.
Qed.

(** C9. A [yn:] or [col:] press whose payload none of the handler's tests
    accepts is acknowledged and nothing else happens: the session is the
    same record, and no message is rendered and no write is made. *)
Theorem unrecognized_is_silent (ctx : Ctx) (p : CallbackPrefixId)
    (data : string) :
  decode (callbackData ctx) = Some (p, data) ->
  unrecognized p data ->
  registerCallbackHandlers ctx =
  (tt, mkCtx (session ctx) (callbackData ctx)
             (effects ctx ++ [AnswerCallbackQuery])).
Proof.
  intros Hd Hu. apply decode_inv in Hd. destruct Hd as [Hr ->].
  unfold registerCallbackHandlers. rewrite Hr.
  destruct p; unfold unrecognized in Hu; try contradiction.
  - destruct Hu as (H1 & H2 & H3 & H4).
    apply String.eqb_neq in H1, H2, H3, H4.
    cbn [handlerOf]. unfold yesNoHandler. run_primitives.
    rewrite H1, H2, H3, H4. reflexivity.
  - destruct Hu as (H1 & H2 & H3 & H4 & H5).
    apply String.eqb_neq in H4.
    cbn [handlerOf]. unfold columnHandler. run_primitives.
    rewrite H1, H2, H3, H4, H5. reflexivity.
Qed.

(** C7, amended. Every concrete column choice writes the pair
    [targetColumn] / [isNewColumn] into the session: [use:] and [select:]
    with [false] before metadata collection is entered, [new:] and
    [create:] with [true] together with the state [awaiting_date_name].
    Only [select:] clears [columnMatches]; [new:] and [create:] leave it
    as it was, and [use:] hands it on unchanged to metadata collection. *)
Theorem column_choice_writes (s : Session) (log : list Effect) (c : string) :
  columnHandler (mkCtx s (encode COLUMN ("use:" ++ c)) log) =
    proceedWithMetadataCollection
      (mkCtx
         (mkSession (state s) (Some c) (column s) false (columnMatches s)
            (playerCount s) (nicknameRowsEntries s)
            (existingValuesEntries s) (usernames s) (pollId s)
            (pollQuestion s))
         (encode COLUMN ("use:" ++ c))
         (log ++ [AnswerCallbackQuery;
                  EditMessageText ("✅ Using column " ++ c) None]))
  /\ columnHandler (mkCtx s (encode COLUMN ("select:" ++ c)) log) =
    proceedWithMetadataCollection
      (mkCtx
         (mkSession (state s) (Some c) (column s) false None
            (playerCount s) (nicknameRowsEntries s)
            (existingValuesEntries s) (usernames s) (pollId s)
            (pollQuestion s))
         (encode COLUMN ("select:" ++ c))
         (log ++ [AnswerCallbackQuery;
                  EditMessageText ("✅ Selected column " ++ c) None]))
  /\ (forall action, action = "new:" \/ action = "create:" ->
      columnHandler (mkCtx s (encode COLUMN (action ++ c)) log) =
      (tt,
       mkCtx
         (mkSession awaiting_date_name (Some c) (column s) true
            (columnMatches s) (playerCount s) (nicknameRowsEntries s)
            (existingValuesEntries s) (usernames s) (pollId s)
            (pollQuestion s))
         (encode COLUMN (action ++ c))
         (log ++ [AnswerCallbackQuery;
                  EditMessageText
                    ("📅 Please provide the date name for column " ++ c
                       ++ " (row 1):") None]))).
Proof.
  split; [|split].
  - unfold columnHandler. run_primitives. rewrite payloadOf_encode.
    simpl. rewrite <- app_assoc. reflexivity.
  - unfold columnHandler. run_primitives. rewrite payloadOf_encode.
    simpl. rewrite <- app_assoc. reflexivity.
  - intros action [-> | ->];
      unfold columnHandler; run_primitives; rewrite payloadOf_encode;
      simpl; rewrite <- app_assoc; reflexivity.
Qed.

(* ---------------------------------------------------------------- *)
(** *** The poll-option handler *)

(** C4. Validation goes in order.  A payload that does not parse as an
    integer is answered with the generic invalid-option message before
    the poll is even fetched, and the session is untouched.  A parsed
    index outside [0, options.length) is answered with the message naming
    the range 1..options.length, and the handler writes no session field:
    the session is the one the poll fetch returned, hence the initial one
    whenever that fetch leaves the session alone. *)
Theorem poll_option_rejections (ctx : Ctx) :
  let data := payloadOf POLL_OPTION (callbackData ctx) in
  (parseInt data = None ->
   pollOptionHandler ctx =
   (tt, mkCtx (session ctx) (callbackData ctx)
          (effects ctx ++ [AnswerCallbackQuery;
                           EditMessageText "❌ Invalid option." None])))
  /\ (forall (index : Z) (pollData : PollData) (ctx' : Ctx),
        parseInt data = Some index ->
        getPollDataOrError (acknowledged ctx) = (Some pollData, ctx') ->
        (index < 0 \/ Z.of_nat (length (options pollData)) <= index)%Z ->
        pollOptionHandler ctx =
        (tt, mkCtx (session ctx') (callbackData ctx')
               (effects ctx' ++
                [EditMessageText
                   ("❌ Invalid option number. Please choose between 1 and "
                      ++ decimal (length (options pollData)) ++ ".") None]))
        /\ (session ctx' = session ctx ->
            session (exec pollOptionHandler ctx) = session ctx)).
Proof.
  cbn zeta. split.
  - intros Hp. unfold pollOptionHandler. run_primitives.
    rewrite Hp. run_primitives. reflexivity.
  - intros index pollData ctx' Hp Hf Hr.
    assert (E : pollOptionHandler ctx =
                (tt, mkCtx (session ctx') (callbackData ctx')
                       (effects ctx' ++
                        [EditMessageText
                           ("❌ Invalid option number. Please choose between 1 and "
                              ++ decimal (length (options pollData)) ++ ".")
                           None]))).
    { unfold pollOptionHandler. run_primitives. rewrite Hp.
      unfold acknowledged in Hf. run_primitives. rewrite Hf.
      replace ((index <? 0) || (index >=? Z.of_nat (length (options pollData))))%Z
        with true; [reflexivity|].
      symmetry. apply orb_true_iff. rewrite Z.ltb_lt, Z.geb_le. lia. }
    split; [exact E|]. intros Hs. unfold exec. rewrite E. exact Hs.
Qed.

(** C5. An in-range index whose voter set is empty, or for which the
    votes hold no entry at all, is rejected with the no-voters message
    and the session is put back to its initial form. *)
Theorem no_voters_resets (ctx ctx' : Ctx) (index : Z) (pollData : PollData) :
  parseInt (payloadOf POLL_OPTION (callbackData ctx)) = Some index ->
  getPollDataOrError (acknowledged ctx) = (Some pollData, ctx') ->
  (0 <= index < Z.of_nat (length (options pollData)))%Z ->
  votes_get (votes pollData) index = None
    \/ votes_get (votes pollData) index = Some [] ->
  pollOptionHandler ctx =
  (tt, mkCtx initialSession (callbackData ctx')
         (effects ctx' ++ [ReportError "❌ No voters found for this option."])).
Proof.
  intros Hp Hf Hr Hv.
  unfold pollOptionHandler. run_primitives. rewrite Hp.
  unfold acknowledged in Hf. run_primitives. rewrite Hf.
  replace ((index <? 0) || (index >=? Z.of_nat (length (options pollData))))%Z
    with false
    by (symmetry; apply orb_false_iff; rewrite Z.ltb_ge, Z.geb_leb, Z.leb_gt; lia).
  assert (Hn : votersOf pollData index = [])
    by (unfold votersOf; destruct Hv as [-> | ->]; reflexivity).
  rewrite Hn. reflexivity.
Qed.

(** C6. An in-range index with a non-empty voter set stores exactly those
    voters, in the order the poll holds them, as [usernames], clears
    [pollId] and [pollQuestion], changes no other field, confirms the
    selection and enters the column-detection flow. *)
Theorem selection_stores_voters (ctx ctx' : Ctx) (index : Z)
    (pollData : PollData) (voters : list string) :
  parseInt (payloadOf POLL_OPTION (callbackData ctx)) = Some index ->
  getPollDataOrError (acknowledged ctx) = (Some pollData, ctx') ->
  (0 <= index < Z.of_nat (length (options pollData)))%Z ->
  votes_get (votes pollData) index = Some voters ->
  voters <> [] ->
  let s' := session ctx' in
  pollOptionHandler ctx =
  startColumnDetectionFlow
    (mkCtx
       (mkSession (state s') (targetColumn s') (column s') (isNewColumn s')
          (columnMatches s') (playerCount s') (nicknameRowsEntries s')
          (existingValuesEntries s') (Some voters) None None)
       (callbackData ctx')
       (effects ctx' ++
        [EditMessageText
           ("✅ Selected option: " ++ DQ ++ optionAt pollData index ++ DQ
              ++ LF ++ "👥 Attending players: " ++ join " " voters) None])).
Proof.
  intros Hp Hf Hr Hv Hne. cbn zeta.
  unfold pollOptionHandler. run_primitives. rewrite Hp.
  unfold acknowledged in Hf. run_primitives. rewrite Hf.
  replace ((index <? 0) || (index >=? Z.of_nat (length (options pollData))))%Z
    with false
    by (symmetry; apply orb_false_iff; rewrite Z.ltb_ge, Z.geb_leb, Z.leb_gt; lia).
  assert (Hn : votersOf pollData index = voters)
    by (unfold votersOf; rewrite Hv; reflexivity).
  rewrite Hn. destruct voters as [|v rest]; [congruence|]. reflexivity.
Qed.

(* ---------------------------------------------------------------- *)
(** *** The override decision *)

(** C1. Whenever the override decision gets past its guard, the list of
    skipped nicknames handed to the write is empty for [overwrite = true],
    and for [overwrite = false] it is the nicknames of
    [existingValuesEntries] in their order, empty when that field is
    absent. *)
Theorem skipped_list_exact (ctx : Ctx) (overwrite : bool)
    (columnToUse : string) (entries : list (string * Z)) :
  orElse (column (session ctx)) (targetColumn (session ctx))
    = Some columnToUse ->
  columnToUse <> "" ->
  nicknameRowsEntries (session ctx) = Some entries ->
  handleOverrideChoice overwrite ctx =
  tryCatch
    (writeZerosAndRespond (Map_new String.eqb entries) columnToUse overwrite
       (if overwrite then []
        else match existingValuesEntries (session ctx) with
             | Some existing => map nickname existing
             | None => []
             end))
    (fun error => handleApiError error "updating sheet" None)
    (edited (if overwrite then "✅ Will overwrite existing values"
             else "⏭️ Will skip existing values") ctx).
Proof.
  intros Hc Hne He. apply String.eqb_neq in Hne.
  unfold handleOverrideChoice. run_primitives.
  rewrite Hc, He. cbn [truthy]. rewrite Hne. cbn [negb].
  unfold skippedNicknames, edited.
  destruct overwrite; cbn [negb]; [reflexivity|].
  destruct (existingValuesEntries (session ctx)); reflexivity.
Qed.

(** C8, amended. When neither [column] nor [targetColumn] holds a
    non-empty value, or [nicknameRowsEntries] is absent, either override
    decision reports the session-data-lost error with the instruction to
    start over and resets the session; nothing else is done, so no write
    is made. *)
Theorem override_guard_resets (ctx : Ctx) (overwrite : bool) :
  truthy (orElse (column (session ctx)) (targetColumn (session ctx))) = false
    \/ nicknameRowsEntries (session ctx) = None ->
  handleOverrideChoice overwrite ctx =
  (tt, mkCtx initialSession (callbackData ctx)
         (effects ctx ++
          [ReportError "❌ Error: session data lost. Start over with /update"])).
Proof.
  intros [Hc | He]; unfold handleOverrideChoice; run_primitives.
  - rewrite Hc. reflexivity.
  - rewrite He.
    destruct (truthy _); [destruct (orElse _ _)|]; reflexivity.
Qed.

End HandlerProperties.

(* ================================================================== *)
(** ** The handlers on concrete presses

    The statements above, instantiated with the recording collaborators. *)

(** C7, as stated, fails on the code: with a disambiguation pending, the
    presses [new:E] and [create:E] store the column choice and leave
    [columnMatches] set. *)
Lemma column_choice_counterexample :
  columnMatches
    (session
       (exec (columnHandler (collaborators := recordingCollaborators None))
          (mkCtx disambiguationSession (encode COLUMN "new:E") [])))
    <> None
  /\ columnMatches
       (session
          (exec (columnHandler (collaborators := recordingCollaborators None))
             (mkCtx disambiguationSession (encode COLUMN "create:E") [])))
       <> None.
Proof. split; vm_compute; discriminate. Qed.

(** C8, as stated, fails on the code: a session without [targetColumn] but
    with [column] gets past the guard; the decision is confirmed, the write
    is made and the session is not reset. *)
Lemma override_guard_counterexample :
  targetColumn columnOnlySession = None
  /\ exec (handleOverrideChoice (collaborators := recordingCollaborators None)
             true)
          (mkCtx columnOnlySession (encode YES_NO "override:yes") [])
     = mkCtx columnOnlySession (encode YES_NO "override:yes")
         [EditMessageText "✅ Will overwrite existing values" None;
          ExternalWrite "attendance in C skipping "]
  /\ columnOnlySession <> initialSession.
Proof. repeat split; vm_compute; discriminate. Qed.

(** Scenario D: skipping with an existing value for alice hands the list
    [alice] to the write. *)
Lemma skipped_list_exact_witness :
  handleOverrideChoice (collaborators := recordingCollaborators None) false
    (mkCtx overrideSession (encode YES_NO "override:no") [])
  = tryCatch
      (@writeZerosAndRespond (recordingCollaborators None)
         (Map_new String.eqb [("alice", 2%Z); ("bob", 3%Z)])
         "C" false ["alice"])
      (fun error =>
         @handleApiError (recordingCollaborators None) error
           "updating sheet" None)
      (edited "⏭️ Will skip existing values"
         (mkCtx overrideSession (encode YES_NO "override:no") [])).
Proof.
  apply (skipped_list_exact
           (mkCtx overrideSession (encode YES_NO "override:no") []) false "C"
           [("alice", 2%Z); ("bob", 3%Z)]);
    [reflexivity | discriminate | reflexivity].
Defined.

(** A non-numeric payload, and scenario C: payload 5 against the two
    options of poll A. *)
Lemma poll_option_rejections_witness :
  pollOptionHandler (collaborators := recordingCollaborators (Some pollA))
    (mkCtx pollSession (encode POLL_OPTION "abc") [])
  = (tt, mkCtx pollSession (encode POLL_OPTION "abc")
           [AnswerCallbackQuery; EditMessageText "❌ Invalid option." None])
  /\ pollOptionHandler (collaborators := recordingCollaborators (Some pollA))
       (mkCtx pollSession (encode POLL_OPTION "5") [])
     = (tt, mkCtx pollSession (encode POLL_OPTION "5")
              [AnswerCallbackQuery;
               EditMessageText
                 "❌ Invalid option number. Please choose between 1 and 2."
                 None]).
Proof.
  split.
  - apply (proj1 (poll_option_rejections
                    (collaborators := recordingCollaborators (Some pollA))
                    (mkCtx pollSession (encode POLL_OPTION "abc") []))).
    reflexivity.
  - apply (proj2 (poll_option_rejections
                    (collaborators := recordingCollaborators (Some pollA))
                    (mkCtx pollSession (encode POLL_OPTION "5") []))
             5%Z pollA
             (acknowledged (mkCtx pollSession (encode POLL_OPTION "5") []))).
    + reflexivity.
    + reflexivity.
    + right. simpl. lia.
Defined.

(** Scenario B: one option, no votes. *)
Lemma no_voters_resets_witness :
  pollOptionHandler (collaborators := recordingCollaborators (Some pollB))
    (mkCtx pollSession (encode POLL_OPTION "0") [])
  = (tt, mkCtx initialSession (encode POLL_OPTION "0")
           [AnswerCallbackQuery;
            ReportError "❌ No voters found for this option."]).
Proof.
  apply (no_voters_resets
           (collaborators := recordingCollaborators (Some pollB))
           (mkCtx pollSession (encode POLL_OPTION "0") [])
           (acknowledged (mkCtx pollSession (encode POLL_OPTION "0") []))
           0%Z pollB).
  - reflexivity.
  - reflexivity.
  - simpl. lia.
  - left. reflexivity.
Defined.

(** Scenario A: the first option of poll A has the voters alice and bob. *)
Lemma selection_stores_voters_witness :
  pollOptionHandler (collaborators := recordingCollaborators (Some pollA))
    (mkCtx pollSession (encode POLL_OPTION "0") [])
  = (tt,
     mkCtx
       (mkSession awaiting_column_choice None None false None None None None
          (Some ["alice"; "bob"]) None None)
       (encode POLL_OPTION "0")
       [AnswerCallbackQuery;
        EditMessageText
          ("✅ Selected option: " ++ DQ ++ "Team A" ++ DQ ++ LF
             ++ "👥 Attending players: alice bob") None]).
Proof.
  apply (selection_stores_voters
           (collaborators := recordingCollaborators (Some pollA))
           (mkCtx pollSession (encode POLL_OPTION "0") [])
           (acknowledged (mkCtx pollSession (encode POLL_OPTION "0") []))
           0%Z pollA ["alice"; "bob"]).
  - reflexivity.
  - reflexivity.
  - simpl. lia.
  - reflexivity.
  - discriminate.
Defined.

(** A session holding neither column field. *)
Lemma override_guard_resets_witness :
  handleOverrideChoice (collaborators := recordingCollaborators None) true
    (mkCtx pollSession (encode YES_NO "override:yes") [AnswerCallbackQuery])
  = (tt, mkCtx initialSession (encode YES_NO "override:yes")
           [AnswerCallbackQuery;
            ReportError "❌ Error: session data lost. Start over with /update"]).
Proof.
  apply (override_guard_resets
           (collaborators := recordingCollaborators None)
           (mkCtx pollSession (encode YES_NO "override:yes")
              [AnswerCallbackQuery]) true).
  left. reflexivity.
Defined.

(** Two stale presses: [yn:override:maybe] and [col:pick:C]. *)
Lemma unrecognized_is_silent_witness :
  registerCallbackHandlers (collaborators := recordingCollaborators None)
    (mkCtx overrideSession "yn:override:maybe" [])
  = (tt, mkCtx overrideSession "yn:override:maybe" [AnswerCallbackQuery])
  /\ registerCallbackHandlers (collaborators := recordingCollaborators None)
       (mkCtx disambiguationSession "col:pick:C" [])
     = (tt, mkCtx disambiguationSession "col:pick:C" [AnswerCallbackQuery]).
Proof.
  split.
  - apply (unrecognized_is_silent
             (collaborators := recordingCollaborators None)
             (mkCtx overrideSession "yn:override:maybe" [])
             YES_NO "override:maybe").
    + reflexivity.
    + simpl. repeat split; discriminate.
  - apply (unrecognized_is_silent
             (collaborators := recordingCollaborators None)
             (mkCtx disambiguationSession "col:pick:C" [])
             COLUMN "pick:C").
    + reflexivity.
    + simpl. repeat split; discriminate.
Defined.


(* ================================================================== *)
(** ** Further properties: routing and parsing *)

Lemma startsWith_ex (p s : string) :
  startsWith s p = true -> exists rest, s = p ++ rest.
Proof.
  revert s. induction p as [|a p IH]; intros s H.
  - exists s. reflexivity.
  - destruct s as [|b s]; [discriminate H|]. simpl in H.
    apply andb_prop in H. destruct H as [Hab Hs].
    apply Ascii.eqb_eq in Hab. subst b.
    destruct (IH s Hs) as [rest ->]. exists rest. reflexivity.
Qed.

Lemma startsWith_append (p rest : string) : startsWith (p ++ rest) p = true.
Proof.
  induction p as [|a p IH]; simpl; [reflexivity|].
  rewrite Ascii.eqb_refl. exact IH.
Qed.

Lemma trigger_exclusive (data : string) (p q : CallbackPrefixId) :
  trigger p data = true -> trigger q data = true -> p = q.
Proof.
  unfold trigger. intros Hp Hq.
  apply startsWith_ex in Hp. destruct Hp as [r1 ->].
  apply startsWith_ex in Hq. destruct Hq as [r2 Hq].
  destruct p, q; try reflexivity; simpl in Hq; discriminate Hq.
Qed.

Lemma registered_complete (p : CallbackPrefixId) : In p registered.
Proof. destruct p; simpl; tauto. Qed.

Lemma route_some_trigger (data : string) (p : CallbackPrefixId) :
  route data = Some p -> trigger p data = true.
Proof. unfold route. intros H. apply find_some in H. apply H. Qed.

(** X1. A button press is routed to the handler of a prefix exactly when
    its callback data starts with that prefix: no callback data triggers
    two handlers, so the order of registration plays no part. *)
Theorem route_iff_trigger (data : string) (p : CallbackPrefixId) :
  route data = Some p <-> trigger p data = true.
Proof.
  split; [apply route_some_trigger|].
  unfold route.
  - intros H. destruct (find _ registered) as [q|] eqn:E.
    + apply find_some in E. destruct E as [_ E].
      f_equal. exact (trigger_exclusive data q p E H).
    + pose proof (find_none _ _ E p (registered_complete p)) as N.
      cbn beta in N. congruence.
Qed.

(** X2. Whatever [decode] returns rebuilds the callback data: a press
    decoded to a prefix and a payload carried exactly that prefix followed
    by exactly that payload. *)
Theorem decode_sound (raw : string) (p : CallbackPrefixId) (payload : string) :
  decode raw = Some (p, payload) -> raw = encode p payload.
Proof.
  intros H. apply decode_inv in H. destruct H as [Hr ->].
  apply route_some_trigger in Hr. unfold trigger in Hr.
  apply startsWith_ex in Hr. destruct Hr as [rest ->].
  unfold encode, payloadOf. now rewrite slice_append.
Qed.

Lemma decode_sound_witness :
  "col:select:C" = encode COLUMN "select:C".
Proof. apply (decode_sound "col:select:C" COLUMN "select:C"). reflexivity. Defined.

Lemma digit_not_special (c : ascii) :
  isDigit c = true ->
  isWhite1 c = false /\ byteIs c 194 = false /\ byteIs c 225 = false
  /\ byteIs c 226 = false /\ byteIs c 227 = false /\ byteIs c 239 = false
  /\ byteIs c 45 = false /\ byteIs c 43 = false.
Proof.
  unfold isDigit, isWhite1, byteIs. cbn zeta.
  set (n := nat_of_ascii c). intros H.
  apply andb_prop in H. destruct H as [H1 H2].
  apply Nat.leb_le in H1, H2.
  repeat split;
    repeat match goal with
           | |- _ || _ = false => apply orb_false_iff; split
           | |- _ && _ = false => apply andb_false_iff; right
           | |- (_ <=? _)%nat = false => apply Nat.leb_gt; lia
           | |- (_ =? _)%nat = false => apply Nat.eqb_neq; lia
           end.
Qed.

Lemma skipWhiteSpace_digit (c : ascii) (s : string) :
  isDigit c = true -> skipWhiteSpace (String c s) = String c s.
Proof.
  intros H. destruct (digit_not_special c H)
    as (W1 & B194 & B225 & B226 & B227 & B239 & _).
  cbn [skipWhiteSpace]. rewrite W1.
  destruct s as [|b s]; [reflexivity|].
  unfold isWhite2. rewrite B194. cbn [andb].
  destruct s as [|d s]; [reflexivity|].
  unfold isWhite3. rewrite B225, B226, B227, B239. reflexivity.
Qed.

Lemma parseInt_digit (c : ascii) (s : string) :
  isDigit c = true -> parseInt (String c s) = readDigits (String c s) false 0.
Proof.
  intros H. unfold parseInt. rewrite (skipWhiteSpace_digit c s H).
  destruct (digit_not_special c H) as (_ & _ & _ & _ & _ & _ & M & P).
  rewrite M, P. reflexivity.
Qed.

Lemma readDigits_stop (s : string) (acc : Z) :
  startsWithDigit s = false -> readDigits s true acc = Some acc.
Proof.
  destruct s as [|c s]; simpl; intros H; [reflexivity|]. now rewrite H.
Qed.

(** Reading the digits printed for [d] multiplies the accumulator by ten
    and adds the digit, once per digit, as [Nat.of_uint_acc] does. *)
Lemma readDigits_uint (d : Decimal.uint) (rest : string) :
  forall (seen : bool) (acc : nat),
    readDigits (NilEmpty.string_of_uint d ++ rest) seen (Z.of_nat acc) =
    readDigits rest
      (match d with Decimal.Nil => seen | _ => true end)
      (Z.of_nat (Nat.of_uint_acc d acc)).
Proof.
  induction d as [|d IH|d IH|d IH|d IH|d IH|d IH|d IH|d IH|d IH|d IH];
    intros seen acc; [reflexivity| ..];
    cbn [NilEmpty.string_of_uint String.append readDigits Nat.of_uint_acc];
    (replace (isDigit _) with true by reflexivity);
    cbn iota;
    match goal with
    | |- readDigits _ true ?z = readDigits _ _ (Z.of_nat (Nat.of_uint_acc d ?a)) =>
        replace z with (Z.of_nat a)
          by (rewrite Nat.tail_mul_spec;
              match goal with
              | |- context [digitValue ?c] =>
                  let v := eval vm_compute in (digitValue c) in
                  change (digitValue c) with v
              end; lia)
    end;
    rewrite IH; destruct d; reflexivity.
Qed.

Lemma to_uint_not_nil (n : nat) : Nat.to_uint n <> Decimal.Nil.
Proof.
  intros H. pose proof (DecimalNat.Unsigned.of_to n) as E.
  rewrite H in E. simpl in E. subst n. discriminate H.
Qed.

Lemma parseInt_uint (d : Decimal.uint) (rest : string) :
  d <> Decimal.Nil ->
  startsWithDigit rest = false ->
  parseInt (NilEmpty.string_of_uint d ++ rest)
  = Some (Z.of_nat (Nat.of_uint d)).
Proof.
  intros Hnil Hrest.
  pose proof (readDigits_uint d rest false 0) as Hread.
  unfold Nat.of_uint.
  destruct d as [|d|d|d|d|d|d|d|d|d|d]; [congruence| ..];
    cbn [NilEmpty.string_of_uint String.append] in *;
    (rewrite parseInt_digit by reflexivity);
    change (Z.of_nat 0) with 0%Z in Hread;
    rewrite Hread; apply readDigits_stop; exact Hrest.
Qed.



(* ================================================================== *)
(** ** Further properties: the per-item keyboards *)

Lemma kb_text_last (pre : InlineKeyboard) (r : list InlineKeyboardButton)
    (label data : string) :
  kb_text label data (pre ++ [r])%list
  = (pre ++ [r ++ [mkButton label data]])%list.
Proof.
  induction pre as [|r0 pre IH]; [reflexivity|].
  cbn [app]. destruct (pre ++ [r])%list as [|r1 rows] eqn:E.
  - destruct pre; discriminate E.
  - change (kb_text label data (r0 :: r1 :: rows))
      with (r0 :: kb_text label data (r1 :: rows)).
    now rewrite IH.
Qed.

(** A loop that adds one button per item and opens a row after every item
    but the last leaves each button alone on its row, with no empty row at
    the end. *)
Lemma one_per_row_loop {A : Type} (mk : A -> nat -> InlineKeyboardButton)
    (total : Z) (arr : list A) :
  forall (index : nat) (pre : InlineKeyboard),
    total = Z.of_nat (index + length arr) ->
    forEachFrom
      (fun x index keyboard =>
         let keyboard :=
           kb_text (text (mk x index)) (callback_data (mk x index)) keyboard in
         if (Z.of_nat index <? total - 1)%Z then kb_row keyboard else keyboard)
      arr index (pre ++ [[]])%list
    = match arr with
      | [] => (pre ++ [[]])%list
      | _ => (pre ++ map (fun xi => [mk (fst xi) (snd xi)])
                       (combine arr (seq index (length arr))))%list
      end.
Proof.
  induction arr as [|x rest IH]; intros index pre Ht; [reflexivity|].
  cbn [forEachFrom]. cbn beta zeta in IH |- *. rewrite kb_text_last.
  cbn [app].
  replace (mkButton (text (mk x index)) (callback_data (mk x index)))
    with (mk x index) by (destruct (mk x index); reflexivity).
  cbn [length seq combine map fst snd].
  destruct rest as [|y rest].
  - replace (Z.of_nat index <? total - 1)%Z with false
      by (symmetry; apply Z.ltb_ge; cbn [length] in Ht; lia).
    reflexivity.
  - replace (Z.of_nat index <? total - 1)%Z with true
      by (symmetry; apply Z.ltb_lt; cbn [length] in Ht; lia).
    change (kb_row (pre ++ [[mk x index]])%list)
      with ((pre ++ [[mk x index]]) ++ [[]])%list.
    rewrite (IH (S index) (pre ++ [[mk x index]])%list)
      by (cbn [length] in *; lia).
    rewrite <- app_assoc. reflexivity.
Qed.

Lemma concat_singletons {A B : Type} (f : A -> B) (l : list A) :
  concat (map (fun x => [f x]) l) = map f l.
Proof. induction l as [|x l IH]; simpl; [reflexivity | now rewrite IH]. Qed.

Lemma nth_error_indexed {A : Type} (arr : list A) :
  forall (start i : nat),
    nth_error (combine arr (seq start (length arr))) i
    = option_map (fun x => (x, (start + i)%nat)) (nth_error arr i).
Proof.
  induction arr as [|x rest IH]; intros start i.
  - destruct i; reflexivity.
  - destruct i as [|i]; cbn [length seq combine nth_error option_map].
    + now rewrite Nat.add_0_r.
    + rewrite IH. destruct (nth_error rest i); cbn [option_map];
        [|reflexivity].
      do 2 f_equal. lia.
Qed.

(** X5. The poll-option keyboard holds one row per option, in order, each
    with the single button of that option: its label shows the 1-based
    number, the option text and the number of voters (0 when the votes hold
    no entry), its callback data is [po:] followed by the 0-based index.
    With no option at all the keyboard is one empty row. *)
Theorem pollOptionKeyboard_layout (options : list string) (votes : Votes) :
  pollOptionKeyboard options votes
  = match options with
    | [] => [[]]
    | _ => map (fun oi => [pollOptionButton votes (fst oi) (snd oi)])
               (indexed options)
    end.
Proof.
  unfold pollOptionKeyboard, forEach, indexed, newInlineKeyboard.
  exact (one_per_row_loop (pollOptionButton votes)
           (Z.of_nat (length options)) options 0 [] eq_refl).
Qed.

(** X7. The column-selection keyboard holds one row per candidate, in the
    order supplied, each with the single select button of that candidate,
    and no empty row at the end; with no candidate it is one empty row. *)
Theorem columnSelectionKeyboard_layout (matches : list ColumnMatch) :
  columnSelectionKeyboard matches
  = match matches with
    | [] => [[]]
    | _ => map (fun mi => [selectButton (fst mi) (snd mi)]) (indexed matches)
    end.
Proof.
  unfold columnSelectionKeyboard, forEach, indexed, newInlineKeyboard.
  exact (one_per_row_loop selectButton
           (Z.of_nat (length matches)) matches 0 [] eq_refl).
Qed.

Lemma pollOptionKeyboard_buttons (options : list string) (votes : Votes) :
  buttons (pollOptionKeyboard options votes)
  = map (fun oi => pollOptionButton votes (fst oi) (snd oi)) (indexed options).
Proof.
  pose proof (one_per_row_loop (pollOptionButton votes)
                (Z.of_nat (length options)) options 0 [] eq_refl) as L.
  change (pollOptionKeyboard options votes
          = match options with
            | [] => [[]]
            | _ => map (fun oi => [pollOptionButton votes (fst oi) (snd oi)])
                       (indexed options)
            end) in L.
  unfold buttons. rewrite L.
  destruct options as [|o rest]; [reflexivity|].
  apply (concat_singletons
           (fun oi => pollOptionButton votes (fst oi) (snd oi))).
Qed.

(* ================================================================== *)
(** ** Further properties: the nickname-row map *)

Lemma Map_get_set (m : NicknameRows) (k : string) (v : Z) (k' : string) :
  Map_get String.eqb (Map_set String.eqb m k v) k'
  = if k' =? k then Some v else Map_get String.eqb m k'.
Proof.
  induction m as [|[k0 v0] m IH]; cbn [Map_set Map_get]; [reflexivity|].
  destruct (k =? k0) eqn:E; cbn [Map_get].
  - apply String.eqb_eq in E. subst k0. destruct (k' =? k); reflexivity.
  - destruct (k' =? k0) eqn:E'.
    + apply String.eqb_eq in E'. subst k'.
      rewrite String.eqb_sym, E. reflexivity.
    + exact IH.
Qed.

Lemma Map_get_app (m1 m2 : NicknameRows) (k : string) :
  Map_get String.eqb (m1 ++ m2)%list k
  = match Map_get String.eqb m1 k with
    | Some v => Some v
    | None => Map_get String.eqb m2 k
    end.
Proof.
  induction m1 as [|[k0 v0] m1 IH]; cbn [app Map_get]; [reflexivity|].
  destruct (k =? k0); [reflexivity | exact IH].
Qed.

Lemma Map_get_fold (entries : list (string * Z)) :
  forall (m : NicknameRows) (k : string),
    Map_get String.eqb
      (fold_left (fun m kv => Map_set String.eqb m (fst kv) (snd kv)) entries m)
      k
    = match Map_get String.eqb (rev entries) k with
      | Some v => Some v
      | None => Map_get String.eqb m k
      end.
Proof.
  induction entries as [|[k0 v0] entries IH]; intros m k;
    cbn [fold_left rev fst snd]; [reflexivity|].
  rewrite IH, Map_get_app, Map_get_set. cbn [Map_get].
  destruct (Map_get String.eqb (rev entries) k); [reflexivity|].
  destruct (k =? k0); reflexivity.
Qed.

(** X15. In the nickname-row map built from the session entries, a
    nickname that occurs in several entries is mapped to the row of its
    last entry; a nickname that occurs in none is absent. *)
Theorem nicknameRows_last_entry_wins (entries : list (string * Z))
    (k : string) :
  Map_get String.eqb (Map_new String.eqb entries) k
  = Map_get String.eqb (rev entries) k.
Proof.
  unfold Map_new. rewrite Map_get_fold. cbn [Map_get].
  destruct (Map_get String.eqb (rev entries) k); reflexivity.
Qed.

Lemma Map_set_keys_in (m : NicknameRows) (k : string) (v : Z) (x : string) :
  In x (map fst (Map_set String.eqb m k v)) <-> x = k \/ In x (map fst m).
Proof.
  induction m as [|[k0 v0] m IH]; cbn [Map_set map fst In].
  - intuition congruence.
  - destruct (k =? k0) eqn:E; cbn [map fst In].
    + apply String.eqb_eq in E. subst k0. intuition congruence.
    + rewrite IH. intuition congruence.
Qed.

Lemma Map_set_keys_NoDup (m : NicknameRows) (k : string) (v : Z) :
  NoDup (map fst m) -> NoDup (map fst (Map_set String.eqb m k v)).
Proof.
  induction m as [|[k0 v0] m IH]; cbn [Map_set map fst]; intros H.
  - constructor; [intros [] | constructor].
  - inversion H as [|? ? Hnotin Hrest]; subst.
    destruct (k =? k0) eqn:E; cbn [map fst].
    + apply String.eqb_eq in E. subst k0. constructor; assumption.
    + apply String.eqb_neq in E. constructor; [|apply IH; assumption].
      rewrite Map_set_keys_in. intros [-> | Hin]; [congruence | contradiction].
Qed.

Lemma Map_fold_keys (entries : list (string * Z)) :
  forall m : NicknameRows,
    NoDup (map fst m) ->
    let m' :=
      fold_left (fun m kv => Map_set String.eqb m (fst kv) (snd kv)) entries m
    in
    NoDup (map fst m')
    /\ forall x, In x (map fst m') <-> In x (map fst entries) \/ In x (map fst m).
Proof.
  induction entries as [|[k0 v0] entries IH]; intros m Hm; cbn zeta;
    cbn [fold_left map fst snd In].
  - split; [assumption | tauto].
  - destruct (IH (Map_set String.eqb m k0 v0) (Map_set_keys_NoDup m k0 v0 Hm))
      as [Hn Hin].
    split; [exact Hn|]. intros x. rewrite Hin, Map_set_keys_in.
    intuition congruence.
Qed.

Lemma Map_size_new (entries : list (string * Z)) :
  Map_size (Map_new String.eqb entries)
  = length (nodup string_dec (map fst entries)).
Proof.
  unfold Map_size, Map_new.
  destruct (Map_fold_keys entries [] (NoDup_nil _)) as [Hn Hin].
  rewrite <- (length_map fst).
  apply Permutation.Permutation_length.
  apply Permutation.NoDup_Permutation; [exact Hn | apply NoDup_nodup |].
  intros x. rewrite Hin, nodup_In. cbn [map In]. tauto.
Qed.

(* ================================================================== *)
(** ** Further properties: the handlers *)

Lemma append_nil_r (s : string) : s ++ "" = s.
Proof. induction s as [|c s IH]; simpl; [reflexivity | now rewrite IH]. Qed.

Lemma append_assoc (a b c : string) : (a ++ b) ++ c = a ++ b ++ c.
Proof. induction a as [|x a IH]; simpl; [reflexivity | now rewrite IH]. Qed.

Lemma view_loop (pollData : PollData) (opts : list string) :
  forall (index : nat) (response : string),
    forEachFrom
      (fun opt index response =>
         let voterList := join " " (votersOf pollData (Z.of_nat index)) in
         response ++ decimal (index + 1) ++ ". " ++ opt ++ ": "
           ++ (if voterList =? "" then "(no votes)" else voterList) ++ LF)
      opts index response
    = response
        ++ String.concat ""
             (map (fun oi => viewLine pollData (fst oi) (snd oi))
                (combine opts (seq index (length opts)))).
Proof.
  induction opts as [|opt rest IH]; intros index response.
  - cbn [forEachFrom length seq combine map String.concat].
    now rewrite append_nil_r.
  - cbn [forEachFrom length seq combine map fst snd].
    cbn beta zeta in IH |- *. rewrite IH.
    change (decimal (index + 1) ++ ". " ++ opt ++ ": "
              ++ (if join " " (votersOf pollData (Z.of_nat index)) =? ""
                  then "(no votes)"
                  else join " " (votersOf pollData (Z.of_nat index))) ++ LF)
      with (viewLine pollData opt index).
    rewrite append_assoc. f_equal.
    destruct (combine rest (seq (S index) (length rest))) as [|p ps];
      cbn [map String.concat].
    + now rewrite append_nil_r.
    + reflexivity.
Qed.

Section MoreHandlerProperties.
Context {collaborators : Collaborators}.

(** The poll-option handler on a parsed, in-range index. *)
Lemma pollOptionHandler_in_range (ctx ctx' : Ctx) (index : Z)
    (pollData : PollData) :
  parseInt (payloadOf POLL_OPTION (callbackData ctx)) = Some index ->
  getPollDataOrError (acknowledged ctx) = (Some pollData, ctx') ->
  (0 <= index < Z.of_nat (length (options pollData)))%Z ->
  pollOptionHandler ctx =
  match votersOf pollData index with
  | [] =>
      (tt, mkCtx initialSession (callbackData ctx')
             (effects ctx' ++ [ReportError "❌ No voters found for this option."]))
  | voters =>
      startColumnDetectionFlow
        (mkCtx
           (set_pollQuestion None
              (set_pollId None (set_usernames (Some voters) (session ctx'))))
           (callbackData ctx')
           (effects ctx' ++
            [EditMessageText
               ("✅ Selected option: " ++ DQ ++ optionAt pollData index ++ DQ
                  ++ LF ++ "👥 Attending players: " ++ join " " voters) None]))
  end.
Proof.
  intros Hp Hf Hr.
  unfold pollOptionHandler. run_primitives. rewrite Hp.
  unfold acknowledged in Hf. run_primitives. rewrite Hf.
  replace ((index <? 0) || (index >=? Z.of_nat (length (options pollData))))%Z
    with false
    by (symmetry; apply orb_false_iff; rewrite Z.ltb_ge, Z.geb_leb, Z.leb_gt; lia).
  destruct (votersOf pollData index); reflexivity.
Qed.

(** X3. A press whose callback data starts with none of the four prefixes
    reaches no handler: it is not even acknowledged, and the session and
    the effect log stay as they were. *)
Theorem unrouted_is_ignored (ctx : Ctx) :
  (forall p, trigger p (callbackData ctx) = false) ->
  registerCallbackHandlers ctx = (tt, ctx).
Proof.
  intros H. unfold registerCallbackHandlers.
  destruct (route (callbackData ctx)) as [p|] eqn:E; [|reflexivity].
  apply route_some_trigger in E. rewrite H in E. discriminate E.
Qed.

(** X6. Pressing a button of the poll-option keyboard built from the poll
    that the handler then fetches is never answered with an invalid-option
    message: the payload parses to the index of the button, which is in
    range, and the press either stores the voters of that option and
    enters column detection, or, when that option has no voter, reports it
    and resets the session. *)
Theorem poll_button_press (ctx ctx' : Ctx) (pollData : PollData) (i : nat)
    (b : InlineKeyboardButton) :
  nth_error (buttons (pollOptionKeyboard (options pollData) (votes pollData))) i
    = Some b ->
  callbackData ctx = callback_data b ->
  getPollDataOrError (acknowledged ctx) = (Some pollData, ctx') ->
  pollOptionHandler ctx =
  match votersOf pollData (Z.of_nat i) with
  | [] =>
      (tt, mkCtx initialSession (callbackData ctx')
             (effects ctx' ++ [ReportError "❌ No voters found for this option."]))
  | voters =>
      startColumnDetectionFlow
        (mkCtx
           (set_pollQuestion None
              (set_pollId None (set_usernames (Some voters) (session ctx'))))
           (callbackData ctx')
           (effects ctx' ++
            [EditMessageText
               ("✅ Selected option: " ++ DQ
                  ++ optionAt pollData (Z.of_nat i) ++ DQ ++ LF
                  ++ "👥 Attending players: " ++ join " " voters) None]))
  end.
Proof.
  intros Hb Hcd Hf.
  rewrite pollOptionKeyboard_buttons in Hb. unfold indexed in Hb.
  rewrite nth_error_map, nth_error_indexed in Hb.
  destruct (nth_error (options pollData) i) as [opt|] eqn:Hopt;
    [|discriminate Hb].
  cbn [option_map fst snd] in Hb. injection Hb as <-.
  assert (Hi : (i < length (options pollData))%nat)
    by (apply nth_error_Some; congruence).
  apply pollOptionHandler_in_range; [|exact Hf|lia].
  rewrite Hcd. cbn [pollOptionButton callback_data Nat.add].
  rewrite payloadOf_encode, <- (append_nil_r (decimal i)). unfold decimal.
  rewrite (parseInt_uint (Nat.to_uint i) "" (to_uint_not_nil i) eq_refl).
  now rewrite DecimalNat.Unsigned.of_to.
Qed.

(** X8. [col:cancel] puts the session back to its initial form whatever it
    held, and confirms the cancellation. *)
Theorem cancel_resets (s : Session) (log : list Effect) :
  registerCallbackHandlers (mkCtx s (encode COLUMN "cancel") log) =
  (tt, mkCtx initialSession (encode COLUMN "cancel")
         (log ++ [AnswerCallbackQuery;
                  EditMessageText
                    "✅ Operation cancelled. Use /update to start again."
                    None])).
Proof.
  unfold registerCallbackHandlers. cbn [callbackData].
  rewrite route_encode. cbn [handlerOf].
  unfold columnHandler. run_primitives. rewrite payloadOf_encode.
  simpl. rewrite <- app_assoc. reflexivity.
Qed.

(** X9. Accepting the recognised player count needs [targetColumn] itself:
    when it is absent or empty, or the nickname rows are absent, the
    session-data-lost error is reported and the session reset, whatever
    [column] holds; nothing is written. *)
Theorem playercount_yes_guard (ctx : Ctx) :
  truthy (targetColumn (session ctx)) = false
    \/ nicknameRowsEntries (session ctx) = None ->
  handlePlayerCountYes ctx =
  (tt, mkCtx initialSession (callbackData ctx)
         (effects ctx ++ [ReportError ERR_SESSION_DATA_LOST])).
Proof.
  intros [Hc | He]; unfold handlePlayerCountYes; run_primitives.
  - rewrite Hc. reflexivity.
  - rewrite He.
    destruct (truthy _); [destruct (targetColumn _)|]; reflexivity.
Qed.

(** X10. Past its guard, accepting the recognised player count stores as
    [playerCount] the number of distinct nicknames among the nickname-row
    entries, shows that number, and hands it with [targetColumn] to the
    metadata write, followed by the override check on the nickname-row
    map. *)
Theorem playercount_yes_counts_distinct (ctx : Ctx) (target : string)
    (entries : list (string * Z)) :
  targetColumn (session ctx) = Some target ->
  target <> "" ->
  nicknameRowsEntries (session ctx) = Some entries ->
  let count := length (nodup string_dec (map fst entries)) in
  handlePlayerCountYes ctx =
  tryCatch
    (andThen initSheetsClient (fun sheetsClient =>
     andThen
       (writeColumnMetadata sheetsClient target None None
          (Some (Z.of_nat count)))
       (fun _ => checkOverridesAndWrite (Map_new String.eqb entries))))
    (fun error =>
       handleApiError error "writing player count or checking overrides"
         (Some false))
    (mkCtx (set_playerCount (Some (Z.of_nat count)) (session ctx))
       (callbackData ctx)
       (effects ctx ++
        [EditMessageText ("✅ Player count: " ++ decimal count) None])).
Proof.
  intros Ht Hne He. cbn zeta. apply String.eqb_neq in Hne.
  unfold handlePlayerCountYes. run_primitives.
  rewrite Ht, He. cbn [truthy]. rewrite Hne. cbn [negb].
  rewrite Map_size_new. reflexivity.
Qed.

(** X11. When the metadata write throws, the override check is skipped and
    the error is handed to [handleApiError] with the operation name and the
    flag [false], on the context the failed write left. *)
Theorem playercount_write_failure (ctx ctx1 ctx2 : Ctx) (target : string)
    (entries : list (string * Z)) (sheetsClient : SheetsClient)
    (error : ApiError) :
  targetColumn (session ctx) = Some target ->
  target <> "" ->
  nicknameRowsEntries (session ctx) = Some entries ->
  let count := Map_size (Map_new String.eqb entries) in
  initSheetsClient
    (mkCtx (set_playerCount (Some (Z.of_nat count)) (session ctx))
       (callbackData ctx)
       (effects ctx ++
        [EditMessageText ("✅ Player count: " ++ decimal count) None]))
    = (inr sheetsClient, ctx1) ->
  writeColumnMetadata sheetsClient target None None (Some (Z.of_nat count)) ctx1
    = (inl error, ctx2) ->
  handlePlayerCountYes ctx =
  handleApiError error "writing player count or checking overrides"
    (Some false) ctx2.
Proof.
  intros Ht Hne He count Hi Hw. apply String.eqb_neq in Hne.
  unfold handlePlayerCountYes. run_primitives.
  rewrite Ht, He. cbn [truthy]. rewrite Hne. cbn [negb].
  unfold tryCatch, andThen, bind, ret. fold count. rewrite Hi, Hw.
  reflexivity.
Qed.

(** X12. The view intent, when the poll is fetched, renders the question
    followed by one line per option in order, with the voters separated by
    spaces or [(no votes)], and then resets the session. *)
Theorem view_renders_and_resets (ctx ctx' : Ctx) (pollData : PollData) :
  payloadOf POLL_INTENT (callbackData ctx) = "view" ->
  getPollDataOrError (acknowledged ctx) = (Some pollData, ctx') ->
  pollIntentHandler ctx =
  (tt, mkCtx initialSession (callbackData ctx')
         (effects ctx' ++
          [EditMessageText
             (("📊 Poll: " ++ DQ ++ question pollData ++ DQ ++ LF ++ LF)
                ++ String.concat ""
                     (map (fun oi => viewLine pollData (fst oi) (snd oi))
                        (indexed (options pollData))))
             None])).
Proof.
  intros Hd Hf. unfold pollIntentHandler. run_primitives. rewrite Hd.
  cbn [String.eqb Ascii.eqb Bool.eqb]. cbn iota.
  unfold acknowledged in Hf. run_primitives. rewrite Hf.
  unfold viewResponse, forEach. rewrite view_loop. reflexivity.
Qed.

(** X13. When the poll fetch yields nothing, the poll handlers add nothing
    of their own: for the update and view intents and for a poll-option
    press with a numeric payload, the outcome is the context the fetch
    left. *)
Theorem fetch_failure_is_silent (ctx ctx' : Ctx) :
  getPollDataOrError (acknowledged ctx) = (None, ctx') ->
  (payloadOf POLL_INTENT (callbackData ctx) = "update"
   \/ payloadOf POLL_INTENT (callbackData ctx) = "view" ->
   pollIntentHandler ctx = (tt, ctx'))
  /\ (parseInt (payloadOf POLL_OPTION (callbackData ctx)) <> None ->
      pollOptionHandler ctx = (tt, ctx')).
Proof.
  intros Hf. unfold acknowledged in Hf. split.
  - intros [Hd | Hd]; unfold pollIntentHandler; run_primitives; rewrite Hd;
      cbn [String.eqb Ascii.eqb Bool.eqb]; cbn iota; run_primitives;
      rewrite Hf; reflexivity.
  - intros Hp. unfold pollOptionHandler. run_primitives.
    destruct (parseInt _); [|congruence]. run_primitives.
    rewrite Hf. reflexivity.
Qed.

(** X14. The override decision writes to [column] when it holds a
    non-empty value, whatever [targetColumn] holds, and falls back to
    [targetColumn] only when [column] is absent or empty. *)
Theorem override_column_precedence (ctx : Ctx) (overwrite : bool)
    (c : string) (entries : list (string * Z)) :
  nicknameRowsEntries (session ctx) = Some entries ->
  c <> "" ->
  column (session ctx) = Some c
    \/ (truthy (column (session ctx)) = false
        /\ targetColumn (session ctx) = Some c) ->
  handleOverrideChoice overwrite ctx =
  tryCatch
    (writeZerosAndRespond (Map_new String.eqb entries) c overwrite
       (skippedNicknames overwrite (session ctx)))
    (fun error => handleApiError error "updating sheet" None)
    (edited (if overwrite then "✅ Will overwrite existing values"
             else "⏭️ Will skip existing values") ctx).
Proof.
  intros He Hne Hc. apply String.eqb_neq in Hne.
  assert (Ho : orElse (column (session ctx)) (targetColumn (session ctx))
               = Some c).
  { unfold orElse. destruct Hc as [Hc | [Hf Ht]].
    - rewrite Hc. cbn [truthy]. now rewrite Hne.
    - now rewrite Hf. }
  unfold handleOverrideChoice. run_primitives.
  rewrite Ho, He. cbn [truthy]. rewrite Hne. reflexivity.
Qed.

(** X16. Pressing a button of the column-selection keyboard chooses the
    column of the candidate at the same position: [targetColumn] becomes
    that column, [isNewColumn] is [false], the pending matches are cleared
    and metadata collection is entered. *)
Theorem select_button_press (ctx : Ctx) (matches : list ColumnMatch)
    (i : nat) (b : InlineKeyboardButton) :
  nth_error (buttons (columnSelectionKeyboard matches)) i = Some b ->
  callbackData ctx = callback_data b ->
  exists m,
    nth_error matches i = Some m
    /\ columnHandler ctx =
       proceedWithMetadataCollection
         (mkCtx
            (set_columnMatches None
               (set_isNewColumn false
                  (set_targetColumn (Some (cm_column m)) (session ctx))))
            (callbackData ctx)
            (effects ctx ++
             [AnswerCallbackQuery;
              EditMessageText ("✅ Selected column " ++ cm_column m) None])).
Proof.
  intros Hb Hcd.
  rewrite columnSelectionKeyboard_buttons, nth_error_map, nth_error_indexed
    in Hb.
  destruct (nth_error matches i) as [m|] eqn:Hm; [|discriminate Hb].
  cbn [option_map fst snd] in Hb. injection Hb as <-.
  exists m. split; [reflexivity|].
  unfold columnHandler. run_primitives.
  rewrite Hcd. cbn [selectButton callback_data].
  rewrite payloadOf_encode. simpl. rewrite <- app_assoc. reflexivity.
Qed.

(** X17. A [pi:] press whose payload is neither [update] nor [view] is
    acknowledged and nothing else happens: the poll is not fetched and the
    session stays as it was. *)
Theorem unrecognized_intent_is_silent (ctx : Ctx) :
  payloadOf POLL_INTENT (callbackData ctx) <> "update" ->
  payloadOf POLL_INTENT (callbackData ctx) <> "view" ->
  pollIntentHandler ctx =
  (tt, mkCtx (session ctx) (callbackData ctx)
         (effects ctx ++ [AnswerCallbackQuery])).
Proof.
  intros H1 H2. apply String.eqb_neq in H1, H2.
  unfold pollIntentHandler. run_primitives. rewrite H1, H2. reflexivity.
Qed.

End MoreHandlerProperties.

(* ================================================================== *)
(** ** The further properties on concrete presses *)

(** The prefix is case-sensitive: [YN:override:yes] reaches no handler. *)
Lemma unrouted_is_ignored_witness :
  registerCallbackHandlers (collaborators := recordingCollaborators None)
    (mkCtx overrideSession "YN:override:yes" [])
  = (tt, mkCtx overrideSession "YN:override:yes" []).
Proof.
  apply (unrouted_is_ignored
           (collaborators := recordingCollaborators None)
           (mkCtx overrideSession "YN:override:yes" [])).
  intros p. destruct p; reflexivity.
Defined.

(** The second button of the keyboard of poll A, an option nobody chose. *)
Lemma poll_button_press_witness :
  pollOptionHandler (collaborators := recordingCollaborators (Some pollA))
    (mkCtx pollSession "po:1" [])
  = (tt, mkCtx initialSession "po:1"
           [AnswerCallbackQuery;
            ReportError "❌ No voters found for this option."]).
Proof.
  apply (poll_button_press
           (collaborators := recordingCollaborators (Some pollA))
           (mkCtx pollSession "po:1" [])
           (acknowledged (mkCtx pollSession "po:1" []))
           pollA 1 (pollOptionButton (votes pollA) "Team B" 1));
    reflexivity.
Defined.

(** A session with [column] but without [targetColumn]. *)
Lemma playercount_yes_guard_witness :
  handlePlayerCountYes (collaborators := recordingCollaborators None)
    (mkCtx columnOnlySession (encode YES_NO "playercount:yes") [])
  = (tt, mkCtx initialSession (encode YES_NO "playercount:yes")
           [ReportError "❌ Error: session data lost. Start over with /update"]).
Proof.
  apply (playercount_yes_guard
           (collaborators := recordingCollaborators None)
           (mkCtx columnOnlySession (encode YES_NO "playercount:yes") [])).
  left. reflexivity.
Defined.

(** Three entries, two distinct nicknames: the count is 2. *)
Lemma playercount_yes_counts_distinct_witness :
  handlePlayerCountYes (collaborators := recordingCollaborators None)
    (mkCtx duplicateSession (encode YES_NO "playercount:yes") [])
  = (tt,
     mkCtx (set_playerCount (Some 2%Z) duplicateSession)
       (encode YES_NO "playercount:yes")
       [EditMessageText "✅ Player count: 2" None;
        ExternalWrite "metadata of C"]).
Proof.
  rewrite (playercount_yes_counts_distinct
             (collaborators := recordingCollaborators None)
             (mkCtx duplicateSession (encode YES_NO "playercount:yes") [])
             "C" [("alice", 2%Z); ("bob", 3%Z); ("alice", 7%Z)]);
    [reflexivity | reflexivity | discriminate | reflexivity].
Defined.

(** The sheet store refuses the metadata write: the override check, which
    would record a write, is not reached. *)
Lemma playercount_write_failure_witness :
  handlePlayerCountYes (collaborators := refusingCollaborators)
    (mkCtx duplicateSession (encode YES_NO "playercount:yes") [])
  = (tt,
     mkCtx (set_playerCount (Some 2%Z) duplicateSession)
       (encode YES_NO "playercount:yes")
       [EditMessageText "✅ Player count: 2" None;
        ReportError
          "writing player count or checking overrides: quota exceeded"]).
Proof.
  apply (playercount_write_failure
           (collaborators := refusingCollaborators)
           (mkCtx duplicateSession (encode YES_NO "playercount:yes") [])
           (mkCtx (set_playerCount (Some 2%Z) duplicateSession)
              (encode YES_NO "playercount:yes")
              [EditMessageText "✅ Player count: 2" None])
           (mkCtx (set_playerCount (Some 2%Z) duplicateSession)
              (encode YES_NO "playercount:yes")
              [EditMessageText "✅ Player count: 2" None])
           "C" [("alice", 2%Z); ("bob", 3%Z); ("alice", 7%Z)] tt
           "quota exceeded");
    [reflexivity | discriminate | reflexivity | reflexivity | reflexivity].
Defined.

(** Viewing poll A. *)
Lemma view_renders_and_resets_witness :
  pollIntentHandler (collaborators := recordingCollaborators (Some pollA))
    (mkCtx pollSession (encode POLL_INTENT "view") [])
  = (tt,
     mkCtx initialSession (encode POLL_INTENT "view")
       [AnswerCallbackQuery;
        EditMessageText
          ("📊 Poll: " ++ DQ ++ "Who plays?" ++ DQ ++ LF ++ LF
             ++ "1. Team A: alice bob" ++ LF
             ++ "2. Team B: (no votes)" ++ LF) None]).
Proof.
  apply (view_renders_and_resets
           (collaborators := recordingCollaborators (Some pollA))
           (mkCtx pollSession (encode POLL_INTENT "view") [])
           (acknowledged (mkCtx pollSession (encode POLL_INTENT "view") []))
           pollA);
    reflexivity.
Defined.

(** The poll source finds no poll and says so itself. *)
Lemma fetch_failure_is_silent_witness :
  pollIntentHandler (collaborators := refusingCollaborators)
    (mkCtx pollSession (encode POLL_INTENT "update") [])
  = (tt, mkCtx pollSession (encode POLL_INTENT "update")
           [AnswerCallbackQuery; ReportError "poll not found"])
  /\ pollOptionHandler (collaborators := refusingCollaborators)
       (mkCtx pollSession (encode POLL_OPTION "0") [])
     = (tt, mkCtx pollSession (encode POLL_OPTION "0")
              [AnswerCallbackQuery; ReportError "poll not found"]).
Proof.
  split.
  - apply (proj1 (fetch_failure_is_silent
                    (collaborators := refusingCollaborators)
                    (mkCtx pollSession (encode POLL_INTENT "update") [])
                    _ eq_refl)).
    left. reflexivity.
  - apply (proj2 (fetch_failure_is_silent
                    (collaborators := refusingCollaborators)
                    (mkCtx pollSession (encode POLL_OPTION "0") [])
                    _ eq_refl)).
    discriminate.
Defined.

(** With [column] C and [targetColumn] D the write goes to C. *)
Lemma override_column_precedence_witness :
  handleOverrideChoice (collaborators := recordingCollaborators None) true
    (mkCtx bothColumnsSession (encode YES_NO "override:yes") [])
  = (tt,
     mkCtx bothColumnsSession (encode YES_NO "override:yes")
       [EditMessageText "✅ Will overwrite existing values" None;
        ExternalWrite "attendance in C skipping "]).
Proof.
  rewrite (override_column_precedence
             (collaborators := recordingCollaborators None)
             (mkCtx bothColumnsSession (encode YES_NO "override:yes") [])
             true "C" [("alice", 2%Z)]);
    [reflexivity | reflexivity | discriminate | left; reflexivity].
Defined.

(** The second button of the disambiguation keyboard selects column D. *)
Lemma select_button_press_witness :
  exists m,
    nth_error pendingMatches 1 = Some m
    /\ columnHandler (collaborators := recordingCollaborators None)
         (mkCtx disambiguationSession "col:select:D" [])
       = @proceedWithMetadataCollection (recordingCollaborators None)
           (mkCtx
              (set_columnMatches None
                 (set_isNewColumn false
                    (set_targetColumn (Some (cm_column m))
                       disambiguationSession)))
              "col:select:D"
              [AnswerCallbackQuery;
               EditMessageText ("✅ Selected column " ++ cm_column m) None]).
Proof.
  apply (select_button_press
           (collaborators := recordingCollaborators None)
           (mkCtx disambiguationSession "col:select:D" [])
           pendingMatches 1
           (selectButton (mkColumnMatch "D" "08.03") 1));
    reflexivity.
Defined.

(** A stale intent. *)
Lemma unrecognized_intent_is_silent_witness :
  pollIntentHandler (collaborators := recordingCollaborators (Some pollA))
    (mkCtx pollSession "pi:delete" [])
  = (tt, mkCtx pollSession "pi:delete" [AnswerCallbackQuery]).
Proof.
  apply (unrecognized_intent_is_silent
           (collaborators := recordingCollaborators (Some pollA))
           (mkCtx pollSession "pi:delete" []));
    discriminate.
Defined.

(* ================================================================== *)
(** ** Further properties: keyboards against handlers *)

Lemma decode_of_encode (p : CallbackPrefixId) (payload : string) :
  decode (encode p payload) = Some (p, payload).
Proof.
  unfold decode. rewrite route_encode. cbn [option_map].
  now rewrite payloadOf_encode.
Qed.

(** X18. Every button of the column-confirmation, new-column,
    column-selection, player-count and override keyboards carries callback
    data that its handler recognises: no button these builders produce is
    dropped as an unknown action. *)
Theorem keyboards_emit_recognized_actions (current next column : string)
    (matches : list ColumnMatch) (recognizedCount : nat)
    (b : InlineKeyboardButton) :
  In b (buttons (columnConfirmationKeyboard current next)
          ++ buttons (newColumnChoiceKeyboard column)
          ++ buttons (columnSelectionKeyboard matches)
          ++ buttons (playerCountConfirmationKeyboard recognizedCount)
          ++ buttons overrideConfirmationKeyboard)%list ->
  exists p data,
    decode (callback_data b) = Some (p, data)
    /\ (p = YES_NO \/ p = COLUMN)
    /\ ~ unrecognized p data.
Proof.
  intros H.
  apply in_app_or in H. destruct H as [H | H];
    [|apply in_app_or in H; destruct H as [H | H];
      [|apply in_app_or in H; destruct H as [H | H];
        [|apply in_app_or in H; destruct H as [H | H]]]].
  - cbn in H. destruct H as [<- | [<- | []]]; cbn [callback_data].
    + exists COLUMN, ("use:" ++ current).
      split; [exact (decode_of_encode COLUMN ("use:" ++ current))|].
      split; [now right|]. intros [U _]. discriminate U.
    + exists COLUMN, ("new:" ++ next).
      split; [exact (decode_of_encode COLUMN ("new:" ++ next))|].
      split; [now right|]. intros (_ & U & _). discriminate U.
  - cbn in H. destruct H as [<- | [<- | []]]; cbn [callback_data].
    + exists COLUMN, ("create:" ++ column).
      split; [exact (decode_of_encode COLUMN ("create:" ++ column))|].
      split; [now right|]. intros (_ & _ & U & _). discriminate U.
    + exists COLUMN, "cancel".
      split; [exact (decode_of_encode COLUMN "cancel")|].
      split; [now right|]. intros (_ & _ & _ & U & _). now apply U.
  - rewrite columnSelectionKeyboard_buttons in H. apply in_map_iff in H.
    destruct H as ([m i] & <- & _). cbn [fst snd selectButton callback_data].
    exists COLUMN, ("select:" ++ cm_column m).
      split; [exact (decode_of_encode COLUMN ("select:" ++ cm_column m))|].
      split; [now right|]. intros (_ & _ & _ & _ & U). discriminate U.
  - cbn in H. destruct H as [<- | [<- | []]]; cbn [callback_data].
    + exists YES_NO, "playercount:yes".
      split; [exact (decode_of_encode YES_NO "playercount:yes")|].
      split; [now left|]. intros (U & _). now apply U.
    + exists YES_NO, "playercount:no".
      split; [exact (decode_of_encode YES_NO "playercount:no")|].
      split; [now left|]. intros (_ & U & _). now apply U.
  - cbn in H. destruct H as [<- | [<- | []]]; cbn [callback_data].
    + exists YES_NO, "override:yes".
      split; [exact (decode_of_encode YES_NO "override:yes")|].
      split; [now left|]. intros (_ & _ & U & _). now apply U.
    + exists YES_NO, "override:no".
      split; [exact (decode_of_encode YES_NO "override:no")|].
      split; [now left|]. intros (_ & _ & _ & U). now apply U.
Qed.

Lemma keyboards_emit_recognized_actions_witness :
  exists p data,
    decode "col:select:D" = Some (p, data)
    /\ (p = YES_NO \/ p = COLUMN)
    /\ ~ unrecognized p data.
Proof.
  apply (keyboards_emit_recognized_actions "C" "D" "E" pendingMatches 2
           (selectButton (mkColumnMatch "D" "08.03") 1)).
  vm_compute. tauto.
Defined.

Section IntentProperties.
Context {collaborators : Collaborators}.

(** X19. The update intent, when the poll is fetched, moves the session to
    [awaiting_poll_option_selection], writing no other field, and asks for
    the option under the poll-option keyboard built from the options and
    votes of the fetched poll. *)
Theorem update_offers_poll_keyboard (ctx ctx' : Ctx) (pollData : PollData) :
  payloadOf POLL_INTENT (callbackData ctx) = "update" ->
  getPollDataOrError (acknowledged ctx) = (Some pollData, ctx') ->
  let s' := session ctx' in
  pollIntentHandler ctx =
  (tt,
   mkCtx
     (mkSession awaiting_poll_option_selection (targetColumn s') (column s')
        (isNewColumn s') (columnMatches s') (playerCount s')
        (nicknameRowsEntries s') (existingValuesEntries s') (usernames s')
        (pollId s') (pollQuestion s'))
     (callbackData ctx')
     (effects ctx' ++
      [EditMessageText
         ("Which option contains the attending players?" ++ LF ++ LF
            ++ buildPollOptionsText pollData)
         (Some (pollOptionKeyboard (options pollData) (votes pollData)))])).
Proof.
  intros Hd Hf. cbn zeta. unfold pollIntentHandler. run_primitives.
  rewrite Hd. cbn [String.eqb Ascii.eqb Bool.eqb]. cbn iota.
  unfold acknowledged in Hf. run_primitives. rewrite Hf. reflexivity.
Qed.

End IntentProperties.

(** Updating from poll A. *)
Lemma update_offers_poll_keyboard_witness :
  pollIntentHandler (collaborators := recordingCollaborators (Some pollA))
    (mkCtx pollSession (encode POLL_INTENT "update") [])
  = (tt,
     mkCtx pollSession (encode POLL_INTENT "update")
       [AnswerCallbackQuery;
        EditMessageText
          ("Which option contains the attending players?" ++ LF ++ LF
             ++ "Team A" ++ LF ++ "Team B")
          (Some [[mkButton "1. Team A (2)" "po:0"];
                 [mkButton "2. Team B (0)" "po:1"]])]).
Proof.
  apply (update_offers_poll_keyboard
           (collaborators := recordingCollaborators (Some pollA))
           (mkCtx pollSession (encode POLL_INTENT "update") [])
           (acknowledged (mkCtx pollSession (encode POLL_INTENT "update") []))
           pollA);
    reflexivity.
Defined.
